(** * Story2Test AI: the generation pipeline of [streamlit_app.py]

    A shallow embedding of the non-presentation logic of the application:
    the JSON extractor [extract_json], the prompt template, the model
    client [call_openai], the row builder [to_df] and the handler of the
    generate button, followed by the properties its specification states
    about them.

    Python values are embedded as the inductive type [pyobj]; a Python
    [str] is the Rocq [string] of its UTF-8 bytes, and its characters
    are the code points these bytes encode.  A function that can raise
    returns an [outcome]; the script itself, which reads and writes
    [st.session_state], draws widgets and calls the network, runs in the
    state monad [script] over a [world].  A data frame is held as the
    list of the row dictionaries it is made from; the widgets that
    display and export the stored table are not part of the model. *)

From Stdlib Require Import String Ascii List ZArith Bool Arith Lia.
From Stdlib Require Import DecimalString.
Import ListNotations.

Open Scope string_scope.
Open Scope list_scope.

(* ================================================================= *)
(** ** Exceptions and the error monad *)

(** The exception classes the pipeline can meet.  [APIError] stands for
    whatever the OpenAI client raises (transport, authentication, rate
    limit); only its message is observed, through [f"Error: {e}"]. *)
Inductive exn : Type :=
| TypeError
| AttributeError
| JSONDecodeError
| ValueError (msg : string)
| APIError (msg : string).

(** [str(e)] *)
Definition exn_str (e : exn) : string :=
  match e with
  | ValueError msg | APIError msg => msg
  | TypeError | AttributeError | JSONDecodeError => ""
  end.

Inductive outcome (A : Type) : Type :=
| Returned (a : A)
| Raised (e : exn).

Arguments Returned {A} a.
Arguments Raised {A} e.

Definition bind {A B : Type} (m : outcome A) (k : A -> outcome B) : outcome B :=
  match m with
  | Returned a => k a
  | Raised e => Raised e
  end.

(** [try: body  except: handler] with a bare [except], which catches
    every exception. *)
Definition try_except {A : Type} (body : outcome A) (handler : outcome A) : outcome A :=
  match body with
  | Returned a => Returned a
  | Raised _ => handler
  end.

(** Whether a call ended in an exception. *)
Definition raises {A : Type} (m : outcome A) : bool :=
  match m with
  | Returned _ => false
  | Raised _ => true
  end.

Declare Scope outcome_scope.
Delimit Scope outcome_scope with outcome.
Notation "x <- m ;; k" := (bind m (fun x => k))
  (at level 100, m at next level, right associativity) : outcome_scope.

(* ================================================================= *)
(** ** Python objects *)

Set Warnings "-register-all".

Module Py.

(** The values [json.loads] can produce.  A [dict] keeps its keys in
    insertion order, so it is an association list with distinct keys; a
    [float] is kept as the literal it was read from. *)
Inductive pyobj : Type :=
| PyNone
| PyBool (b : bool)
| PyInt (z : Z)
| PyFloat (literal : string)
| PyStr (s : string)
| PyList (items : list pyobj)
| PyDict (entries : list (string * pyobj)).

(** [d[key]] as an option *)
Fixpoint dict_lookup (key : string) (entries : list (string * pyobj)) : option pyobj :=
  match entries with
  | [] => None
  | (k, v) :: rest => if String.eqb key k then Some v else dict_lookup key rest
  end.

(** [d[key] = v]: an existing key keeps its place, a new one goes last. *)
Fixpoint dict_set (key : string) (v : pyobj) (entries : list (string * pyobj))
  : list (string * pyobj) :=
  match entries with
  | [] => [(key, v)]
  | (k, w) :: rest =>
      if String.eqb key k then (k, v) :: rest else (k, w) :: dict_set key v rest
  end.

Definition dict_keys (entries : list (string * pyobj)) : list string :=
  map fst entries.

(** [needle in haystack] on two strings *)
Fixpoint str_contains (needle haystack : string) : bool :=
  String.prefix needle haystack
  || match haystack with
     | EmptyString => false
     | String _ rest => str_contains needle rest
     end.

(** [key == x] for a string [key] *)
Definition eq_str (key : string) (x : pyobj) : bool :=
  match x with
  | PyStr s => String.eqb key s
  | _ => false
  end.

(** A byte that continues the UTF-8 encoding of a code point
    ([10xxxxxx]). *)
Definition is_continuation (c : ascii) : bool :=
  let n := nat_of_ascii c in (128 <=? n)%nat && (n <? 192)%nat.

(** Whether the first byte of [s] is a continuation byte. *)
Definition continues (s : string) : bool :=
  match s with
  | EmptyString => false
  | String d _ => is_continuation d
  end.

(** The one-character strings of a string, as iteration yields them: one
    per code point, that is, a first byte with the continuation bytes
    that follow it. *)
Fixpoint str_chars (s : string) : list string :=
  match s with
  | EmptyString => []
  | String c rest =>
      match str_chars rest with
      | char :: chars =>
          if continues rest then String c char :: chars
          else String c EmptyString :: char :: chars
      | [] => [String c EmptyString]
      end
  end.

(** [not x] is [negb (truthy x)] for a string [x]. *)
Definition truthy (s : string) : bool :=
  match s with
  | EmptyString => false
  | String _ _ => true
  end.

(** [key in container] *)
Definition contains (key : string) (container : pyobj) : outcome bool :=
  match container with
  | PyDict entries => Returned (existsb (String.eqb key) (dict_keys entries))
  | PyList items => Returned (existsb (eq_str key) items)
  | PyStr s => Returned (str_contains key s)
  | PyNone | PyBool _ | PyInt _ | PyFloat _ => Raised TypeError
  end.

(** [obj.get(key, default)]: only a [dict] has the attribute [get]. *)
Definition get (obj : pyobj) (key : string) (default : pyobj) : outcome pyobj :=
  match obj with
  | PyDict entries =>
      Returned (match dict_lookup key entries with
                | Some v => v
                | None => default
                end)
  | _ => Raised AttributeError
  end.

(** The elements [for t in obj] runs through. *)
Definition iter (obj : pyobj) : outcome (list pyobj) :=
  match obj with
  | PyList items => Returned items
  | PyDict entries => Returned (map PyStr (dict_keys entries))
  | PyStr s => Returned (map PyStr (str_chars s))
  | PyNone | PyBool _ | PyInt _ | PyFloat _ => Raised TypeError
  end.

(** [len(obj)] *)
Definition len (obj : pyobj) : outcome nat :=
  match obj with
  | PyList items => Returned (List.length items)
  | PyDict entries => Returned (List.length entries)
  | PyStr s => Returned (List.length (str_chars s))
  | PyNone | PyBool _ | PyInt _ | PyFloat _ => Raised TypeError
  end.

(** Every element handed to [str.join] has to be a [str]. *)
Fixpoint expect_strs (items : list pyobj) : outcome (list string) :=
  match items with
  | [] => Returned []
  | PyStr s :: rest =>
      (strs <- expect_strs rest ;; Returned (s :: strs))%outcome
  | _ :: _ => Raised TypeError
  end.

(** [sep.join(obj)] *)
Definition join (sep : string) (obj : pyobj) : outcome string :=
  (items <- iter obj ;;
   strs <- expect_strs items ;;
   Returned (String.concat sep strs))%outcome.

(** [str(n)] for a natural number, as an f-string prints a length. *)
Definition str_of_nat (n : nat) : string :=
  NilEmpty.string_of_uint (Nat.to_uint n).

End Py.
Import Py.

(** The newline character of ["\n"]. *)
Definition NL : string := String (ascii_of_nat 10) EmptyString.

(** The double quote, which a string literal cannot hold undoubled. *)
Definition DQ : string := String (ascii_of_nat 34) EmptyString.

(* ================================================================= *)
(** ** The regular expression of the extractor *)

Module Re.

(** [re.search(r'(\{.*\})', text, re.S)], written as the backtracking
    matcher runs it.  Under [re.S] the dot matches every character,
    newlines too. *)

(** [.*\}] at the head of [s]: the star first takes one more character
    and only when the rest cannot be matched gives it back and tries the
    closing brace here.  The result is the text matched. *)
Fixpoint match_dotstar_rbrace (s : string) : option string :=
  match s with
  | EmptyString => None
  | String c rest =>
      match match_dotstar_rbrace rest with
      | Some m => Some (String c m)
      | None => if Ascii.eqb c "}" then Some "}" else None
      end
  end.

(** [\{.*\}] at the head of [s] *)
Definition match_here (s : string) : option string :=
  match s with
  | EmptyString => None
  | String c rest =>
      if Ascii.eqb c "{"
      then option_map (String c) (match_dotstar_rbrace rest)
      else None
  end.

(** [search] tries every start position from the left and stops at the
    first that matches; the result is [m.group(1)], here the whole match,
    and [None] when there is no match. *)
Fixpoint search (s : string) : option string :=
  match match_here s with
  | Some m => Some m
  | None =>
      match s with
      | EmptyString => None
      | String _ rest => search rest
      end
  end.

(** The same block in the words of the specification: from the first
    opening brace of the text to its last closing brace. *)
Fixpoint first_index (c : ascii) (s : string) : option nat :=
  match s with
  | EmptyString => None
  | String a rest =>
      if Ascii.eqb a c then Some 0 else option_map S (first_index c rest)
  end.

Fixpoint last_index (c : ascii) (s : string) : option nat :=
  match s with
  | EmptyString => None
  | String a rest =>
      match last_index c rest with
      | Some j => Some (S j)
      | None => if Ascii.eqb a c then Some 0 else None
      end
  end.

Definition brace_span (text : string) : option string :=
  match first_index "{" text, last_index "}" text with
  | Some i, Some j =>
      if (i <? j)%nat then Some (substring i (j - i + 1) text) else None
  | _, _ => None
  end.

End Re.

(* ================================================================= *)
(** ** The JSON extractor *)

Section Extractor.

(** [json.loads] belongs to the Python library, not to the application:
    the extractor is defined over any decoder.  [Raised] stands for any
    exception of the decoder. *)
Variable json_loads : string -> outcome pyobj.

(** [{"raw_text": text}] *)
Definition raw_text_object (text : string) : pyobj :=
  PyDict [("raw_text", PyStr text)].

Definition extract_json (text : string) : outcome pyobj :=
  try_except (json_loads text)
    (match Re.search text with
     | Some group1 =>
         try_except (json_loads group1) (Returned (raw_text_object text))
     | None => Returned (raw_text_object text)
     end).

End Extractor.

(* ================================================================= *)
(** ** The result table *)

(** One dictionary of [rows], under the keys that become the columns of
    the data frame. *)
Record row : Type := mk_row {
  col_Type : string;
  col_ID : pyobj;
  col_Title : pyobj;
  col_Preconditions : pyobj;
  col_Steps : string;
  col_Expected_Result : pyobj;
  col_Priority : pyobj
}.

(** [pd.DataFrame(rows)], held as the dictionaries it is made from: one
    table row per dictionary, in order.  A cell that is a [str] in its
    dictionary is that [str] in the frame.  For the other values pandas
    chooses what it stores by column (the integer 1 beside a null is
    stored as 1.0 beside NaN), and the list does not show that choice:
    what is stated about the cells of a frame is stated of [str] cells. *)
Definition DataFrame : Type := list row.

(** [pd.concat([a, b], ignore_index=True)] *)
Definition pd_concat (a b : DataFrame) : DataFrame := a ++ b.

Local Open Scope outcome_scope.

(** The dictionary the loop body of [to_df] builds for the item [t]; its
    entries are evaluated in the order they are written. *)
Definition to_row (t : pyobj) (kind : string) : outcome row :=
  id <- get t "id" (PyStr "") ;;
  title <- get t "title" (PyStr "") ;;
  preconditions <- get t "preconditions" (PyStr "") ;;
  steps <- get t "steps" (PyList []) ;;
  joined <- join NL steps ;;
  expected_result <- get t "expected_result" (PyStr "") ;;
  priority <- get t "priority" (PyStr "Medium") ;;
  Returned {| col_Type := kind;
              col_ID := id;
              col_Title := title;
              col_Preconditions := preconditions;
              col_Steps := joined;
              col_Expected_Result := expected_result;
              col_Priority := priority |}.

(** [for t in items: rows.append({...})] on the elements still to visit,
    [rows] being the list built so far. *)
Fixpoint to_df_loop (ts : list pyobj) (kind : string) (rows : list row)
  : outcome (list row) :=
  match ts with
  | [] => Returned rows
  | t :: rest =>
      r <- to_row t kind ;;
      to_df_loop rest kind (rows ++ [r])
  end.

Definition to_df (items : pyobj) (kind : string) : outcome DataFrame :=
  ts <- iter items ;;
  to_df_loop ts kind [].

Local Close Scope outcome_scope.

(* ================================================================= *)
(** ** The script monad *)

(** [st.session_state], with the two keys the script uses; [None] is an
    absent key. *)
Record session_state : Type := mk_session {
  openai_api_key : option string;
  last_results : option DataFrame
}.

(** What a run of the script does that can be seen from outside: the
    message boxes it draws and the request it sends.  Every request has
    [max_tokens=1000] and [temperature=0.0]; the event keeps what varies. *)
Inductive event : Type :=
| st_success (msg : string)
| st_error (msg : string)
| st_warning (msg : string)
| st_text (body : option string)
| chat_completions_create (api_key model : string)
                          (messages : list (string * string)).

Record world : Type := mk_world {
  session : session_state;
  trace : list event
}.

(** A run ends early on [st.stop()], which raises [StopException] (not a
    subclass of [Exception]), or on an exception nobody catches. *)
Inductive interrupt : Type :=
| StopException
| Uncaught (e : exn).

Inductive step (A : Type) : Type :=
| Continue (a : A)
| Interrupted (i : interrupt).

Arguments Continue {A} a.
Arguments Interrupted {A} i.

Definition script (A : Type) : Type := world -> step A * world.

Definition ret {A : Type} (a : A) : script A :=
  fun w => (Continue a, w).

Definition sbind {A B : Type} (m : script A) (k : A -> script B) : script B :=
  fun w =>
    match m w with
    | (Continue a, w') => k a w'
    | (Interrupted i, w') => (Interrupted i, w')
    end.

Declare Scope script_scope.
Delimit Scope script_scope with script.
Bind Scope script_scope with script.
Notation "x <- m ;; k" := (sbind m (fun x => k))
  (at level 100, m at next level, right associativity) : script_scope.
Notation "m ;; k" := (sbind m (fun _ => k))
  (at level 100, right associativity) : script_scope.

Definition emit (e : event) : script unit :=
  fun w => (Continue tt, {| session := session w; trace := trace w ++ [e] |}).

Definition raise {A : Type} (e : exn) : script A :=
  fun w => (Interrupted (Uncaught e), w).

Definition st_stop {A : Type} : script A :=
  fun w => (Interrupted StopException, w).

Definition lift {A : Type} (m : outcome A) : script A :=
  match m with
  | Returned a => ret a
  | Raised e => raise e
  end.

(** [try: body  except Exception as e: handler(e)] *)
Definition try_except_Exception {A : Type}
  (body : script A) (handler : exn -> script A) : script A :=
  fun w =>
    match body w with
    | (Interrupted (Uncaught e), w') => handler e w'
    | other => other
    end.

Definition read_session : script session_state :=
  fun w => (Continue (session w), w).

Definition write_session (s : session_state) : script unit :=
  fun w => (Continue tt, {| session := s; trace := trace w |}).

(* ================================================================= *)
(** ** The application *)

Definition MODEL : string := "gpt-4o-mini".

(** [PROMPT.format(ac=ac)]: the template with its doubled braces printed
    once and [{ac}] replaced. *)
Definition PROMPT_format (ac : string) : string :=
  NL ++ "I will provide acceptance criteria. Produce JSON:" ++ NL ++
  "{" ++ NL ++
  " " ++ DQ ++ "positive" ++ DQ ++ ": [...]," ++ NL ++
  " " ++ DQ ++ "negative" ++ DQ ++ ": [...]" ++ NL ++
  "}" ++ NL ++
  "Each test has: id, title, preconditions, steps, expected_result, priority." ++ NL ++
  "Generate 3-6 positive and 3-6 negative tests. JSON only." ++ NL ++
  NL ++
  "Acceptance Criteria:" ++ NL ++
  ac ++ NL.

(** What the client gives back for one request: the [content] of the
    first choice, which the client types as optional, or a failure with
    its message. *)
Inductive completion : Type :=
| Completion (content : option string)
| Failure (message : string).

(** What the user did on the page before this run. *)
Record inputs : Type := mk_inputs {
  key_input : string;
  ac : string;
  generate_btn : bool
}.

Section App.

(** The environment variable read when the module is loaded. *)
Variable OPENAI_API_KEY : string.

(** The hosted model: the answer to a request. *)
Variable chat_completion :
  string -> string -> list (string * string) -> completion.

Variable json_loads : string -> outcome pyobj.

Local Open Scope script_scope.

(** [st.session_state.get("openai_api_key") or OPENAI_API_KEY] *)
Definition get_api_key : script string :=
  s <- read_session ;;
  ret (match openai_api_key s with
       | Some k => if truthy k then k else OPENAI_API_KEY
       | None => OPENAI_API_KEY
       end).

Definition call_openai (prompt : string) (model : string) : script (option string) :=
  api_key <- get_api_key ;;
  if negb (truthy api_key) then raise (ValueError "API key not set.")
  else
    let messages :=
      [("system", "You are a QA engineer who outputs JSON only.");
       ("user", prompt)] in
    emit (chat_completions_create api_key model messages) ;;
    match chat_completion api_key model messages with
    | Completion content => ret content
    | Failure message => raise (APIError message)
    end.

(** [extract_json(raw)] on what the client returned.  When the content is
    [None], [json.loads] raises inside the [try], and [re.search] raises
    [TypeError] inside the handler, where nothing catches it. *)
Definition extract_json_raw (raw : option string) : outcome pyobj :=
  match raw with
  | Some text => extract_json json_loads text
  | None => Raised TypeError
  end.

(** [key not in parsed] *)
Definition not_in (key : string) (parsed : pyobj) : outcome bool :=
  bind (contains key parsed) (fun b => Returned (negb b)).

(** The sidebar. *)
Definition sidebar (key_input : string) : script unit :=
  if truthy key_input then
    s <- read_session ;;
    write_session {| openai_api_key := Some key_input;
                     last_results := last_results s |} ;;
    emit (st_success "✅ API key loaded")
  else ret tt.

(** The test of line 147, [and] evaluating its right operand only when
    the left one holds. *)
Definition parse_failed (parsed : pyobj) : outcome bool :=
  bind (not_in "positive" parsed) (fun no_positive =>
    if no_positive : bool then not_in "negative" parsed else Returned false).

(** Lines 153 to 175: the two lists, their data frames and the master
    data frame, returned as [(pos, neg, df_all)]. *)
Definition build_df_all (parsed : pyobj) : outcome (pyobj * pyobj * DataFrame) :=
  bind (get parsed "positive" (PyList [])) (fun pos =>
  bind (get parsed "negative" (PyList [])) (fun neg =>
  bind (to_df pos "Positive") (fun df_pos =>
  bind (to_df neg "Negative") (fun df_neg =>
  let df_all := pd_concat df_pos df_neg in
  Returned (pos, neg, df_all))))).

(** Lines 145 to 179: what the handler does with the text of the model. *)
Definition process_output (raw : option string) : script unit :=
  parsed <- lift (extract_json_raw raw) ;;
  failed <- lift (parse_failed parsed) ;;
  (if failed : bool then
     emit (st_error "Could not parse JSON output. Please try again.") ;;
     emit (st_text raw) ;;
     st_stop
   else ret tt) ;;
  built <- lift (build_df_all parsed) ;;
  let '(pos, neg, df_all) := built in
  s <- read_session ;;
  write_session {| openai_api_key := openai_api_key s;
                   last_results := Some df_all |} ;;
  n_pos <- lift (len pos) ;;
  n_neg <- lift (len neg) ;;
  emit (st_success ("✅ Generated " ++ str_of_nat n_pos ++ " positive and "
                    ++ str_of_nat n_neg ++ " negative test cases!")).

(** The body of [if generate_btn:]. *)
Definition generate (ac : string) : script unit :=
  api_key <- get_api_key ;;
  (if negb (truthy api_key) then
     emit (st_error "⚠️ Please enter an API key in the sidebar first.") ;;
     st_stop
   else ret tt) ;;
  (if negb (truthy ac) then
     emit (st_warning "⚠️ Please enter some acceptance criteria first.") ;;
     st_stop
   else ret tt) ;;
  let prompt := PROMPT_format ac in
  raw <- try_except_Exception (call_openai prompt MODEL)
           (fun e => emit (st_error ("Error: " ++ exn_str e)) ;; st_stop) ;;
  process_output raw.

(** One run of the script, up to the point where the stored table is
    displayed. *)
Definition page (inp : inputs) : script unit :=
  sidebar (key_input inp) ;;
  if generate_btn inp then generate (ac inp) else ret tt.

End App.

(* ================================================================= *)
(** ** The display of the stored table *)

(** The options of the Priority column in [column_config]. *)
Definition PRIORITY_OPTIONS : list string := ["High"; "Medium"; "Low"].

(** [style_priority(val)]: the style string of a priority cell. *)
Definition style_priority (val : pyobj) : string :=
  let color :=
    if eq_str "High" val then "#ffcccb"
    else if eq_str "Medium" val then "#ffe5cc"
    else if eq_str "Low" val then "#ccffcc"
    else "white" in
  "background-color: " ++ color
  ++ "; color: black; border-radius: 4px; padding: 2px;".

(** [results_df[results_df["Type"] == kind]], the rows of a tab.  A data
    frame made from no rows has no columns, and so has the concatenation
    of two such frames: [results_df["Type"]] then raises [KeyError],
    which is [None] here. *)
Definition select_Type (kind : string) (results_df : DataFrame)
  : option DataFrame :=
  match results_df with
  | [] => None
  | _ :: _ => Some (filter (fun r => String.eqb (col_Type r) kind) results_df)
  end.

(* ================================================================= *)
(** ** A reference decoder *)

(** The properties of the extractor are stated for every decoder.  To
    run the pipeline on concrete texts, [Json.loads] reads the grammar
    [json.loads] accepts, in the order its scanner tries the cases:
    strings (strict: no raw control characters), objects, arrays, the
    literals, then numbers.  A [str] read from a text is held as its
    UTF-8 bytes, which is how the literals of this file are held too.
    The limits of the interpreter (depth of recursion, length of an
    integer literal) are not modelled. *)
Module Json.

Definition is_ws (c : ascii) : bool :=
  match nat_of_ascii c with
  | 32 | 9 | 10 | 13 => true
  | _ => false
  end.

Fixpoint skip_ws (s : string) : string :=
  match s with
  | EmptyString => EmptyString
  | String c rest => if is_ws c then skip_ws rest else s
  end.

Definition is_digit (c : ascii) : bool :=
  let n := nat_of_ascii c in (48 <=? n)%nat && (n <=? 57)%nat.

Definition hex_val (c : ascii) : option N :=
  let n := N_of_ascii c in
  if (48 <=? n)%N && (n <=? 57)%N then Some (n - 48)%N
  else if (65 <=? n)%N && (n <=? 70)%N then Some (n - 55)%N
  else if (97 <=? n)%N && (n <=? 102)%N then Some (n - 87)%N
  else None.

Definition hex4 (a b c d : ascii) : option N :=
  match hex_val a, hex_val b, hex_val c, hex_val d with
  | Some x, Some y, Some z, Some t =>
      Some (((x * 16 + y) * 16 + z) * 16 + t)%N
  | _, _, _, _ => None
  end.

Definition byte (n : N) : string := String (ascii_of_N n) EmptyString.

(** The UTF-8 bytes of a code point. *)
Definition utf8 (cp : N) : string :=
  if (cp <? 128)%N then byte cp
  else if (cp <? 2048)%N then
    byte (192 + cp / 64) ++ byte (128 + cp mod 64)
  else if (cp <? 65536)%N then
    byte (224 + cp / 4096) ++ byte (128 + (cp / 64) mod 64)
    ++ byte (128 + cp mod 64)
  else
    byte (240 + cp / 262144) ++ byte (128 + (cp / 4096) mod 64)
    ++ byte (128 + (cp / 64) mod 64) ++ byte (128 + cp mod 64).

(** The pieces of a string literal: a character standing for itself or
    the 16-bit value of a [\uXXXX] escape. *)
Inductive piece : Type :=
| Lit (c : ascii)
| Esc (n : N).

(** The body of a string literal, after its opening quote: its pieces
    and the text after the closing quote. *)
Fixpoint scan_string (s : string) : option (list piece * string) :=
  let cons p r :=
    match r with
    | Some (ps, rest) => Some (p :: ps, rest)
    | None => None
    end in
  match s with
  | EmptyString => None
  | String c r =>
      if Ascii.eqb c (ascii_of_nat 34) then Some ([], r)
      else if Ascii.eqb c "\" then
        match r with
        | EmptyString => None
        | String e r' =>
            if Ascii.eqb e (ascii_of_nat 34) then cons (Lit e) (scan_string r')
            else if Ascii.eqb e "\" then cons (Lit e) (scan_string r')
            else if Ascii.eqb e "/" then cons (Lit e) (scan_string r')
            else if Ascii.eqb e "b" then cons (Lit (ascii_of_nat 8)) (scan_string r')
            else if Ascii.eqb e "f" then cons (Lit (ascii_of_nat 12)) (scan_string r')
            else if Ascii.eqb e "n" then cons (Lit (ascii_of_nat 10)) (scan_string r')
            else if Ascii.eqb e "r" then cons (Lit (ascii_of_nat 13)) (scan_string r')
            else if Ascii.eqb e "t" then cons (Lit (ascii_of_nat 9)) (scan_string r')
            else if Ascii.eqb e "u" then
              match r' with
              | String h1 (String h2 (String h3 (String h4 r''))) =>
                  match hex4 h1 h2 h3 h4 with
                  | Some n => cons (Esc n) (scan_string r'')
                  | None => None
                  end
              | _ => None
              end
            else None
        end
      else if (nat_of_ascii c <? 32)%nat then None
      else cons (Lit c) (scan_string r)
  end.

Definition is_high (n : N) : bool := ((55296 <=? n) && (n <=? 56319))%N.
Definition is_low (n : N) : bool := ((56320 <=? n) && (n <=? 57343))%N.

(** The string the pieces stand for; an escaped high surrogate followed
    by an escaped low one is a single code point. *)
Fixpoint decode_pieces (ps : list piece) : string :=
  match ps with
  | [] => EmptyString
  | Lit c :: rest => String c (decode_pieces rest)
  | Esc hi :: rest =>
      match rest with
      | Esc lo :: rest' =>
          if is_high hi && is_low lo
          then utf8 (65536 + ((hi - 55296) * 1024 + (lo - 56320)))
               ++ decode_pieces rest'
          else utf8 hi ++ decode_pieces rest
      | _ => utf8 hi ++ decode_pieces rest
      end
  end.

(** The longest run of digits at the head of [s], and what follows. *)
Fixpoint take_digits (s : string) : string * string :=
  match s with
  | EmptyString => (EmptyString, EmptyString)
  | String c rest =>
      if is_digit c
      then let (ds, tl) := take_digits rest in (String c ds, tl)
      else (EmptyString, s)
  end.

Fixpoint Z_of_digits (acc : Z) (ds : string) : Z :=
  match ds with
  | EmptyString => acc
  | String c rest => Z_of_digits (10 * acc + Z.of_nat (nat_of_ascii c - 48)) rest
  end.

(** The integer part, an optional minus then [0] or a run of digits that
    does not start with [0]: the sign, the digits and the rest. *)
Definition scan_integer (s : string) : option (bool * string * string) :=
  let (minus, s1) :=
    match s with
    | String "-" r => (true, r)
    | _ => (false, s)
    end in
  match s1 with
  | EmptyString => None
  | String c r =>
      if Ascii.eqb c "0" then Some (minus, "0", r)
      else if is_digit c then
        let (ds, tl) := take_digits s1 in Some (minus, ds, tl)
      else None
  end.

(** The optional fraction: a dot and at least one digit. *)
Definition scan_fraction (s : string) : string * string :=
  match s with
  | String "." r =>
      match take_digits r with
      | (EmptyString, _) => (EmptyString, s)
      | (ds, tl) => (("." ++ ds)%string, tl)
      end
  | _ => (EmptyString, s)
  end.

(** The optional exponent: [e] or [E], an optional sign and at least one
    digit. *)
Definition scan_exponent (s : string) : string * string :=
  match s with
  | String e r =>
      if Ascii.eqb e "e" || Ascii.eqb e "E" then
        let (sign, r1) :=
          match r with
          | String g r' =>
              if Ascii.eqb g "-" || Ascii.eqb g "+"
              then (String g EmptyString, r')
              else (EmptyString, r)
          | EmptyString => (EmptyString, r)
          end in
        match take_digits r1 with
        | (EmptyString, _) => (EmptyString, s)
        | (ds, tl) => ((String e sign ++ ds)%string, tl)
        end
      else (EmptyString, s)
  | EmptyString => (EmptyString, s)
  end.

(** A number: an [int] when it has neither fraction nor exponent. *)
Definition scan_number (s : string) : option (pyobj * string) :=
  match scan_integer s with
  | None => None
  | Some (minus, ds, r) =>
      let (frac, r1) := scan_fraction r in
      let (exp, r2) := scan_exponent r1 in
      let sign := if minus : bool then "-" else "" in
      match frac, exp with
      | EmptyString, EmptyString =>
          let n := Z_of_digits 0 ds in
          Some (PyInt (if minus then (- n)%Z else n), r2)
      | _, _ => Some (PyFloat (sign ++ ds ++ frac ++ exp)%string, r2)
      end
  end.

(** [s] without the prefix [p], when it starts with it. *)
Fixpoint strip_prefix (p s : string) : option string :=
  match p, s with
  | EmptyString, _ => Some s
  | String a p', String b s' =>
      if Ascii.eqb a b then strip_prefix p' s' else None
  | String _ _, EmptyString => None
  end.

(** The constant [v] when [s] begins with [word], a number otherwise. *)
Definition scan_literal (word : string) (v : pyobj) (s : string)
  : option (pyobj * string) :=
  match strip_prefix word s with
  | Some rest => Some (v, rest)
  | None => scan_number s
  end.

(** One value at the head of [s] and the text after it.  [fuel] bounds
    the depth of the calls. *)
Fixpoint scan_once (fuel : nat) (s : string) : option (pyobj * string) :=
  match fuel with
  | O => None
  | S fuel' =>
      match s with
      | EmptyString => None
      | String c r =>
          if Ascii.eqb c (ascii_of_nat 34) then
            match scan_string r with
            | Some (ps, rest) => Some (PyStr (decode_pieces ps), rest)
            | None => None
            end
          else if Ascii.eqb c "{" then
            match skip_ws r with
            | String "}" rest => Some (PyDict [], rest)
            | r1 => parse_object fuel' r1 []
            end
          else if Ascii.eqb c "[" then
            match skip_ws r with
            | String "]" rest => Some (PyList [], rest)
            | r1 => parse_array fuel' r1 []
            end
          else if Ascii.eqb c "n" then scan_literal "null" PyNone s
          else if Ascii.eqb c "t" then scan_literal "true" (PyBool true) s
          else if Ascii.eqb c "f" then scan_literal "false" (PyBool false) s
          else if Ascii.eqb c "N" then scan_literal "NaN" (PyFloat "NaN") s
          else if Ascii.eqb c "I" then scan_literal "Infinity" (PyFloat "Infinity") s
          else if Ascii.eqb c "-" then scan_literal "-Infinity" (PyFloat "-Infinity") s
          else scan_number s
      end
  end

(** The members of an object from a key on, [entries] being those read
    so far; a repeated key keeps its place and takes the later value. *)
with parse_object (fuel : nat) (s : string) (entries : list (string * pyobj))
  : option (pyobj * string) :=
  match fuel with
  | O => None
  | S fuel' =>
      match s with
      | EmptyString => None
      | String c r =>
          if Ascii.eqb c (ascii_of_nat 34) then
            match scan_string r with
            | None => None
            | Some (ps, rest) =>
                match skip_ws rest with
                | String ":" r1 =>
                    match scan_once fuel' (skip_ws r1) with
                    | None => None
                    | Some (v, r2) =>
                        let entries' := dict_set (decode_pieces ps) v entries in
                        match skip_ws r2 with
                        | String "}" r3 => Some (PyDict entries', r3)
                        | String "," r3 => parse_object fuel' (skip_ws r3) entries'
                        | _ => None
                        end
                    end
                | _ => None
                end
            end
          else None
      end
  end

(** The elements of an array from a value on. *)
with parse_array (fuel : nat) (s : string) (items : list pyobj)
  : option (pyobj * string) :=
  match fuel with
  | O => None
  | S fuel' =>
      match scan_once fuel' s with
      | None => None
      | Some (v, r1) =>
          match skip_ws r1 with
          | String "]" r2 => Some (PyList (items ++ [v]), r2)
          | String "," r2 => parse_array fuel' (skip_ws r2) (items ++ [v])
          | _ => None
          end
      end
  end.

(** [json.loads(text)]: one value, with white space around it and
    nothing else. *)
Definition loads (text : string) : outcome pyobj :=
  match scan_once (2 * String.length text + 2) (skip_ws text) with
  | Some (v, rest) =>
      match skip_ws rest with
      | EmptyString => Returned v
      | String _ _ => Raised JSONDecodeError
      end
  | None => Raised JSONDecodeError
  end.

End Json.

(* ================================================================= *)
(** ** Vocabulary of the specification *)

(** The three priorities of the data model. *)
Definition valid_priority (v : pyobj) : bool :=
  eq_str "High" v || eq_str "Medium" v || eq_str "Low" v.

(** A value that is neither a mapping nor any other container. *)
Definition is_scalar (v : pyobj) : bool :=
  match v with
  | PyNone | PyBool _ | PyInt _ | PyFloat _ => true
  | PyStr _ | PyList _ | PyDict _ => false
  end.

(** A test case as the data model describes it, missing keys tolerated:
    a mapping whose [steps], when present, is a list of strings. *)
Definition steps_ok (entries : list (string * pyobj)) : bool :=
  match dict_lookup "steps" entries with
  | None => true
  | Some (PyList items) => forallb (fun x => match x with PyStr _ => true | _ => false end) items
  | Some _ => false
  end.

Definition is_test_case (t : pyobj) : bool :=
  match t with
  | PyDict entries => steps_ok entries
  | _ => false
  end.

(** A list of test cases, or an absent key. *)
Definition test_cases_or_absent (v : option pyobj) : bool :=
  match v with
  | None => true
  | Some (PyList items) => forallb is_test_case items
  | Some _ => false
  end.

(** [entries.get(key, default)] on the entries of a mapping. *)
Definition field (key : string) (default : pyobj)
  (entries : list (string * pyobj)) : pyobj :=
  match dict_lookup key entries with
  | Some v => v
  | None => default
  end.

(** [r] is the row [to_df] builds for the item [t] under the tag [kind]. *)
Definition row_of (kind : string) (t : pyobj) (r : row) : Prop :=
  to_row t kind = Returned r /\ col_Type r = kind.

(** The cell [cell] read from [entries] under [key]: the string
    [default] when the key is absent, and the string under the key, as
    it is, when there is one. *)
Definition str_field_defaulted (key default : string)
  (entries : list (string * pyobj)) (cell : pyobj) : Prop :=
  (dict_lookup key entries = None -> cell = PyStr default)
  /\ (forall s, dict_lookup key entries = Some (PyStr s) -> cell = PyStr s).

(** The claim about the priority of the row [r] of the item [t], as the
    code has it: the default when the key is absent, the string under
    the key as it is otherwise. *)
Definition priority_defaulted (t : pyobj) (r : row) : Prop :=
  exists entries,
    t = PyDict entries
    /\ str_field_defaulted "priority" "Medium" entries (col_Priority r).

(** The claim about the steps of the row [r] of the item [t]: what the
    [steps] of the item yields, joined with newlines, and the empty
    string when the key is absent. *)
Definition steps_joined (t : pyobj) (r : row) : Prop :=
  exists entries,
    t = PyDict entries
    /\ (forall (steps : pyobj) (ss : list string),
          dict_lookup "steps" entries = Some steps ->
          iter steps = Returned (map PyStr ss) ->
          col_Steps r = String.concat NL ss)
    /\ (dict_lookup "steps" entries = None -> col_Steps r = EmptyString).

(** The shape of the master table: the rows of the positive items, then
    those of the negative items, one row per item and in their order. *)
Definition laid_out (pos neg : pyobj) (df_all : DataFrame) : Prop :=
  exists ts_pos ts_neg df_pos df_neg,
    iter pos = Returned ts_pos
    /\ iter neg = Returned ts_neg
    /\ len pos = Returned (List.length ts_pos)
    /\ len neg = Returned (List.length ts_neg)
    /\ df_all = df_pos ++ df_neg
    /\ List.length df_all = List.length ts_pos + List.length ts_neg
    /\ Forall2 (row_of "Positive") ts_pos df_pos
    /\ Forall2 (row_of "Negative") ts_neg df_neg.

(** The number of requests sent to the model in a trace. *)
Definition is_request (e : event) : bool :=
  match e with
  | chat_completions_create _ _ _ => true
  | _ => false
  end.

Definition network_calls (tr : list event) : nat :=
  List.length (filter is_request tr).

(** [w] after the events [es] have been drawn. *)
Definition logged (w : world) (es : list event) : world :=
  {| session := session w; trace := trace w ++ es |}.

(** [w] after [df] has been stored under [last_results]. *)
Definition stored (w : world) (df : DataFrame) : world :=
  {| session := {| openai_api_key := openai_api_key (session w);
                   last_results := Some df |};
     trace := trace w |}.

(** The key [get_api_key] finds: the one of the session when it is not
    empty, the one of the environment otherwise. *)
Definition resolved_key (env_key : string) (s : session_state) : string :=
  match openai_api_key s with
  | Some k => if truthy k then k else env_key
  | None => env_key
  end.

(** The messages of a request for [prompt]. *)
Definition messages_for (prompt : string) : list (string * string) :=
  [("system", "You are a QA engineer who outputs JSON only.");
   ("user", prompt)].

(** The request [call_openai] sends for the criteria [ac] with the key
    [k]. *)
Definition request_for (k ac : string) : event :=
  chat_completions_create k MODEL (messages_for (PROMPT_format ac)).

(** The world after the sidebar has run. *)
Definition after_sidebar (inp : inputs) (w : world) : world :=
  if truthy (key_input inp) then
    {| session := {| openai_api_key := Some (key_input inp);
                     last_results := last_results (session w) |};
       trace := trace w ++ [st_success "✅ API key loaded"] |}
  else w.

(** Whether the character [c] occurs in [s]. *)
Fixpoint has_char (c : ascii) (s : string) : bool :=
  match s with
  | EmptyString => false
  | String a rest => Ascii.eqb a c || has_char c rest
  end.

Definition is_str (x : pyobj) : bool :=
  match x with
  | PyStr _ => true
  | _ => false
  end.

(** A value [str.join] accepts: something to iterate over that yields
    strings only. *)
Definition joinable (v : pyobj) : bool :=
  match v with
  | PyList items => forallb is_str items
  | PyDict _ | PyStr _ => true
  | PyNone | PyBool _ | PyInt _ | PyFloat _ => false
  end.

(** An item [to_df] can turn into a row: a mapping whose [steps], when
    present, can be joined. *)
Definition row_buildable (t : pyobj) : bool :=
  match t with
  | PyDict entries =>
      match dict_lookup "steps" entries with
      | Some steps => joinable steps
      | None => true
      end
  | _ => false
  end.

(** A value [to_df] can turn into a data frame: a list of such items, or
    a mapping or a string with nothing in it. *)
Definition convertible (items : pyobj) : bool :=
  match items with
  | PyList ts => forallb row_buildable ts
  | PyDict [] => true
  | PyStr EmptyString => true
  | _ => false
  end.

(** The exception [to_df] raises on the item [t] when it cannot build
    its row. *)
Definition row_error (t : pyobj) : exn :=
  match t with
  | PyDict _ => TypeError
  | _ => AttributeError
  end.

(** The four text columns of the row [r] of the item [t]: the string
    under the key, or the empty string when the key is absent. *)
Definition text_fields_defaulted (t : pyobj) (r : row) : Prop :=
  exists entries,
    t = PyDict entries
    /\ str_field_defaulted "id" "" entries (col_ID r)
    /\ str_field_defaulted "title" "" entries (col_Title r)
    /\ str_field_defaulted "preconditions" "" entries (col_Preconditions r)
    /\ str_field_defaulted "expected_result" "" entries (col_Expected_Result r).

(** [w] with another table, or none, under [last_results]. *)
Definition with_last_results (w : world) (v : option DataFrame) : world :=
  {| session := {| openai_api_key := openai_api_key (session w);
                   last_results := v |};
     trace := trace w |}.

(** The text of the success box for [n_pos] and [n_neg] tests. *)
Definition generated_message (n_pos n_neg : nat) : string :=
  "✅ Generated " ++ str_of_nat n_pos ++ " positive and "
  ++ str_of_nat n_neg ++ " negative test cases!".

(** The fixed part of the prompt, before the criteria. *)
Definition prompt_header : string :=
  NL ++ "I will provide acceptance criteria. Produce JSON:" ++ NL ++
  "{" ++ NL ++
  " " ++ DQ ++ "positive" ++ DQ ++ ": [...]," ++ NL ++
  " " ++ DQ ++ "negative" ++ DQ ++ ": [...]" ++ NL ++
  "}" ++ NL ++
  "Each test has: id, title, preconditions, steps, expected_result, priority." ++ NL ++
  "Generate 3-6 positive and 3-6 negative tests. JSON only." ++ NL ++
  NL ++
  "Acceptance Criteria:" ++ NL.

(* ================================================================= *)
(** ** Sample data *)

Module Sample.

(** A string literal of JSON: [text] between double quotes. *)
Definition q (text : string) : string := DQ ++ text ++ DQ.

(** The model output of the scenario of the specification. *)
Definition login_text : string :=
  "{" ++ q "positive" ++ ":[{" ++ q "id" ++ ":" ++ q "P1" ++ ","
  ++ q "title" ++ ":" ++ q "Login ok" ++ ","
  ++ q "steps" ++ ":[" ++ q "enter email" ++ "," ++ q "enter pw" ++ ","
  ++ q "submit" ++ "]," ++ q "priority" ++ ":" ++ q "High" ++ "}],"
  ++ q "negative" ++ ":[]}".

Definition login_item : pyobj :=
  PyDict [("id", PyStr "P1"); ("title", PyStr "Login ok");
          ("steps", PyList [PyStr "enter email"; PyStr "enter pw"; PyStr "submit"]);
          ("priority", PyStr "High")].

Definition login_object : pyobj :=
  PyDict [("positive", PyList [login_item]); ("negative", PyList [])].

(** The same object wrapped in prose. *)
Definition prose_text : string :=
  "Here are the tests: " ++ login_text ++ " Hope this helps!".

(** An object with the [positive] key only. *)
Definition only_positive_text : string :=
  "{" ++ q "positive" ++ ":[{" ++ q "id" ++ ":" ++ q "P1" ++ "}]}".

(** An item whose priority is none of the three. *)
Definition critical_item : pyobj :=
  PyDict [("id", PyStr "T1"); ("priority", PyStr "Critical")].

(** A session with a key entered and an earlier table on display. *)
Definition earlier_table : DataFrame :=
  [{| col_Type := "Positive"; col_ID := PyStr "OLD"; col_Title := PyStr "";
      col_Preconditions := PyStr ""; col_Steps := "";
      col_Expected_Result := PyStr ""; col_Priority := PyStr "Low" |}].

Definition keyed_world : world :=
  {| session := {| openai_api_key := Some "sk-test";
                   last_results := Some earlier_table |};
     trace := [] |}.

Definition fresh_world : world :=
  {| session := {| openai_api_key := None; last_results := None |};
     trace := [] |}.

(** A model that answers every request with [text]. *)
Definition answering (text : string)
  : string -> string -> list (string * string) -> completion :=
  fun _ _ _ => Completion (Some text).

(** A model whose requests fail. *)
Definition failing (message : string)
  : string -> string -> list (string * string) -> completion :=
  fun _ _ _ => Failure message.

Definition click (criteria : string) : inputs :=
  {| key_input := ""; ac := criteria; generate_btn := true |}.

(** Prose that names both lists and holds no JSON. *)
Definition apology_text : string :=
  "Sorry, no positive or negative tests can be written for this.".

(** A list that holds the string "positive". *)
Definition list_text : string := "[" ++ q "positive" ++ "]".

(** An object whose positive list holds a number. *)
Definition number_item_text : string := "{" ++ q "positive" ++ ":[5]}".

(** An object whose positive list is empty. *)
Definition empty_list_text : string := "{" ++ q "positive" ++ ":[]}".

(** The row of [login_item] in the positive list. *)
Definition login_row : row :=
  {| col_Type := "Positive";
     col_ID := PyStr "P1";
     col_Title := PyStr "Login ok";
     col_Preconditions := PyStr "";
     col_Steps := "enter email" ++ NL ++ "enter pw" ++ NL ++ "submit";
     col_Expected_Result := PyStr "";
     col_Priority := PyStr "High" |}.

End Sample.

(* ================================================================= *)
(** * Properties *)

(** ** The regular expression finds the block from the first opening
       brace to the last closing brace *)

Module ReFacts.
Import Re.

Lemma substring_0_0 (s : string) : substring 0 0 s = EmptyString.
Proof. destruct s; reflexivity. Qed.

(** The greedy star stops at the last closing brace. *)
Lemma match_dotstar_rbrace_last (s : string) :
  match_dotstar_rbrace s =
  option_map (fun j => substring 0 (S j) s) (last_index "}" s).
Proof.
  induction s as [|c rest IH]; simpl; [reflexivity|].
  rewrite IH.
  destruct (last_index "}" rest) as [j|]; simpl; [reflexivity|].
  destruct (Ascii.eqb_spec c "}") as [->|_]; simpl.
  - now rewrite substring_0_0.
  - reflexivity.
Qed.

Lemma search_no_rbrace (s : string) :
  last_index "}" s = None -> search s = None.
Proof.
  induction s as [|c rest IH]; simpl; [reflexivity|].
  destruct (last_index "}" rest) as [j|] eqn:Hl; [discriminate|].
  intros _.
  rewrite match_dotstar_rbrace_last, Hl; simpl.
  destruct (Ascii.eqb c "{"); simpl; now apply IH.
Qed.

Lemma brace_span_skip (c : ascii) (rest : string) :
  Ascii.eqb c "{" = false ->
  brace_span (String c rest) = brace_span rest.
Proof.
  intros Hc. unfold brace_span; simpl. rewrite Hc.
  destruct (first_index "{" rest) as [i|]; simpl; [|reflexivity].
  destruct (last_index "}" rest) as [j|]; simpl.
  - change (S i <? S j)%nat with (i <? j)%nat.
    destruct (i <? j)%nat; reflexivity.
  - destruct (Ascii.eqb c "}"); reflexivity.
Qed.

(** The matcher, tried from the left with a greedy star, returns the
    block the specification describes. *)
Lemma search_brace_span (text : string) :
  search text = brace_span text.
Proof.
  induction text as [|c rest IH]; [reflexivity|].
  destruct (Ascii.eqb c "{") eqn:Hc.
  - apply Ascii.eqb_eq in Hc; subst c.
    unfold brace_span. cbn [search match_here first_index last_index].
    rewrite Ascii.eqb_refl, match_dotstar_rbrace_last.
    destruct (last_index "}" rest) as [j|] eqn:Hl; cbn [option_map].
    + change (0 <? S j)%nat with true. cbv iota.
      replace (S j - 0 + 1) with (S (S j)) by lia.
      reflexivity.
    + change (Ascii.eqb "{" "}") with false. cbv iota.
      now apply search_no_rbrace.
  - rewrite brace_span_skip by assumption.
    cbn [search match_here]. rewrite Hc. exact IH.
Qed.

End ReFacts.

(* ================================================================= *)
(** ** The extractor *)

Section ExtractorFacts.

Variable json_loads : string -> outcome pyobj.

Lemma extract_json_parsed (text : string) (v : pyobj) :
  json_loads text = Returned v ->
  extract_json json_loads text = Returned v.
Proof. intros H. unfold extract_json. now rewrite H. Qed.

(** C3. For every text that is, as a whole, well-formed JSON for an object
    with [positive] and [negative] arrays, [extract_json] returns that
    object: both keys are in it and their arrays are those of the text. *)
Theorem extract_json_round_trip :
  forall (text : string) (entries : list (string * pyobj))
         (positive negative : list pyobj),
    json_loads text = Returned (PyDict entries) ->
    dict_lookup "positive" entries = Some (PyList positive) ->
    dict_lookup "negative" entries = Some (PyList negative) ->
    exists parsed,
      extract_json json_loads text = Returned parsed
      /\ parsed = PyDict entries
      /\ contains "positive" parsed = Returned true
      /\ contains "negative" parsed = Returned true
      /\ get parsed "positive" PyNone = Returned (PyList positive)
      /\ get parsed "negative" PyNone = Returned (PyList negative).
Proof.
  intros text entries positive negative Hloads Hpos Hneg.
  exists (PyDict entries).
  assert (Hin : forall key v, dict_lookup key entries = Some v ->
                  existsb (String.eqb key) (dict_keys entries) = true).
  { intros key v. clear. induction entries as [|[k w] rest IH]; simpl.
    - discriminate.
    - destruct (String.eqb key k); simpl; [reflexivity|exact IH]. }
  split; [now apply extract_json_parsed|].
  split; [reflexivity|].
  split; [unfold contains; now rewrite (Hin _ _ Hpos)|].
  split; [unfold contains; now rewrite (Hin _ _ Hneg)|].
  split; unfold get; [now rewrite Hpos|now rewrite Hneg].
Qed.

(** C4. When neither the whole text nor its block from the first opening
    brace to the last closing brace parses, [extract_json] returns
    exactly [{"raw_text": text}], the text unchanged; and on every string
    it returns a value; it never raises. *)
Theorem extract_json_fallback :
  (forall text : string,
      raises (json_loads text) = true ->
      (forall block, Re.brace_span text = Some block ->
                     raises (json_loads block) = true) ->
      extract_json json_loads text = Returned (PyDict [("raw_text", PyStr text)]))
  /\ (forall text : string,
        exists v, extract_json json_loads text = Returned v).
Proof.
  split.
  - intros text Hwhole Hblock.
    unfold extract_json.
    destruct (json_loads text) as [v|e]; [discriminate|]. simpl.
    rewrite ReFacts.search_brace_span.
    destruct (Re.brace_span text) as [block|]; [|reflexivity].
    specialize (Hblock block eq_refl).
    destruct (json_loads block) as [v|e']; [discriminate|reflexivity].
  - intros text. unfold extract_json.
    destruct (json_loads text) as [v|e]; simpl; [now exists v|].
    destruct (Re.search text) as [block|]; [|now eexists].
    destruct (json_loads block) as [v|e']; simpl; now eexists.
Qed.

(** C5. When the whole text does not parse, [extract_json] tries the
    substring that runs from the first opening brace of the text to its
    last closing brace, and returns what that substring parses to. *)
Theorem extract_json_embedded :
  forall (text : string) (i j : nat) (v : pyobj),
    raises (json_loads text) = true ->
    Re.first_index "{" text = Some i ->
    Re.last_index "}" text = Some j ->
    i < j ->
    json_loads (substring i (j - i + 1) text) = Returned v ->
    Re.search text = Some (substring i (j - i + 1) text)
    /\ extract_json json_loads text = Returned v.
Proof.
  intros text i j v Hwhole Hi Hj Hlt Hblock.
  assert (Hs : Re.search text = Some (substring i (j - i + 1) text)).
  { rewrite ReFacts.search_brace_span. unfold Re.brace_span.
    rewrite Hi, Hj.
    apply Nat.ltb_lt in Hlt. now rewrite Hlt. }
  split; [exact Hs|].
  unfold extract_json.
  destruct (json_loads text) as [w|e]; [discriminate|]. simpl.
  now rewrite Hs, Hblock.
Qed.

End ExtractorFacts.

(* ================================================================= *)
(** ** The row builder *)

Module RowFacts.

Lemma expect_strs_map (ss : list string) :
  expect_strs (map PyStr ss) = Returned ss.
Proof.
  induction ss as [|x rest IH]; simpl; [reflexivity|].
  now rewrite IH.
Qed.

Lemma expect_strs_forallb (items : list pyobj) :
  forallb (fun x => match x with PyStr _ => true | _ => false end) items = true ->
  exists ss, items = map PyStr ss.
Proof.
  induction items as [|x rest IH]; simpl; intros H.
  - now exists [].
  - apply andb_true_iff in H as [Hx Hrest].
    destruct x; try discriminate.
    destruct (IH Hrest) as [ss ->].
    now exists (s :: ss).
Qed.

Lemma join_strs (sep : string) (ss : list string) :
  join sep (PyList (map PyStr ss)) = Returned (String.concat sep ss).
Proof. unfold join; simpl. now rewrite expect_strs_map. Qed.

(** On a mapping only the join of the steps can raise. *)
Lemma to_row_dict (entries : list (string * pyobj)) (kind : string) :
  to_row (PyDict entries) kind =
  bind (join NL (field "steps" (PyList []) entries)) (fun joined =>
    Returned {| col_Type := kind;
                col_ID := field "id" (PyStr "") entries;
                col_Title := field "title" (PyStr "") entries;
                col_Preconditions := field "preconditions" (PyStr "") entries;
                col_Steps := joined;
                col_Expected_Result := field "expected_result" (PyStr "") entries;
                col_Priority := field "priority" (PyStr "Medium") entries |}).
Proof. reflexivity. Qed.

Lemma to_row_inv (t : pyobj) (kind : string) (r : row) :
  to_row t kind = Returned r ->
  exists entries joined,
    t = PyDict entries
    /\ join NL (field "steps" (PyList []) entries) = Returned joined
    /\ r = {| col_Type := kind;
              col_ID := field "id" (PyStr "") entries;
              col_Title := field "title" (PyStr "") entries;
              col_Preconditions := field "preconditions" (PyStr "") entries;
              col_Steps := joined;
              col_Expected_Result := field "expected_result" (PyStr "") entries;
              col_Priority := field "priority" (PyStr "Medium") entries |}.
Proof.
  destruct t as [| | | | |items|entries]; try discriminate.
  rewrite to_row_dict.
  destruct (join NL (field "steps" (PyList []) entries)) as [joined|e] eqn:Hj;
    simpl; [|discriminate].
  intros [= <-]. now exists entries, joined.
Qed.

Lemma to_row_test_case (t : pyobj) (kind : string) :
  is_test_case t = true -> exists r, to_row t kind = Returned r.
Proof.
  destruct t as [| | | | |items|entries]; try discriminate.
  unfold is_test_case, steps_ok. rewrite to_row_dict. unfold field.
  destruct (dict_lookup "steps" entries) as [v|].
  - destruct v; try discriminate.
    intros H. destruct (expect_strs_forallb _ H) as [ss ->].
    rewrite join_strs. simpl. now eexists.
  - intros _. simpl. now eexists.
Qed.

(** The loop appends one row per item, in the order of the items. *)
Lemma to_df_loop_rows (kind : string) (ts : list pyobj) :
  forall rows out,
    to_df_loop ts kind rows = Returned out ->
    exists rs, out = rows ++ rs /\ Forall2 (row_of kind) ts rs.
Proof.
  induction ts as [|t rest IH]; simpl; intros rows out H.
  - injection H as <-. exists []. split; [now rewrite app_nil_r|constructor].
  - destruct (to_row t kind) as [r|e] eqn:Hr; simpl in H; [|discriminate].
    destruct (IH _ _ H) as (rs & -> & Hall).
    exists (r :: rs). split; [now rewrite <- app_assoc|].
    constructor; [|exact Hall].
    split; [exact Hr|].
    destruct (to_row_inv _ _ _ Hr) as (entries & joined & _ & _ & ->).
    reflexivity.
Qed.

Lemma to_df_loop_total (kind : string) (ts : list pyobj) :
  forallb is_test_case ts = true ->
  forall rows, exists out, to_df_loop ts kind rows = Returned out.
Proof.
  induction ts as [|t rest IH]; simpl; intros H rows.
  - now eexists.
  - apply andb_true_iff in H as [Ht Hrest].
    destruct (to_row_test_case t kind Ht) as [r ->]. simpl.
    apply IH, Hrest.
Qed.

Lemma to_df_rows (items : pyobj) (kind : string) (rows : DataFrame) :
  to_df items kind = Returned rows ->
  exists ts, iter items = Returned ts
             /\ len items = Returned (List.length ts)
             /\ Forall2 (row_of kind) ts rows.
Proof.
  unfold to_df. destruct (iter items) as [ts|e] eqn:Hi; simpl; [|discriminate].
  intros H. destruct (to_df_loop_rows _ _ _ _ H) as (rs & -> & Hall).
  exists ts. split; [reflexivity|]. split; [|exact Hall].
  destruct items; try discriminate; simpl in *; injection Hi as <-.
  - now rewrite length_map.
  - reflexivity.
  - unfold dict_keys. now rewrite !length_map.
Qed.

Lemma field_str_defaulted (key default : string)
      (entries : list (string * pyobj)) :
  str_field_defaulted key default entries (field key (PyStr default) entries).
Proof.
  unfold str_field_defaulted, field. split.
  - now intros ->.
  - now intros s ->.
Qed.

(** A string that is not empty has a first character. *)
Lemma str_chars_cons (c : ascii) (s : string) :
  exists char chars, str_chars (String c s) = char :: chars.
Proof.
  cbn [str_chars]. destruct (str_chars s) as [|x xs]; [now eexists; eexists|].
  destruct (continues s); now eexists; eexists.
Qed.

Lemma Forall2_row_of_type (kind : string) (ts : list pyobj) (rows : list row) :
  Forall2 (row_of kind) ts rows -> Forall (fun r => col_Type r = kind) rows.
Proof. induction 1 as [|t r ts rs [_ Hk] _ IH]; constructor; assumption. Qed.

End RowFacts.

(** C1, as the code has it. For every item of a list handed to [to_df],
    the Priority of its row is "Medium" when the item has no [priority]
    key and is the string under that key otherwise, whatever that
    string is: it is not compared with High, Medium and Low. *)
Theorem to_df_priority_default :
  forall (items : list pyobj) (kind : string) (rows : DataFrame),
    to_df (PyList items) kind = Returned rows ->
    Forall2 priority_defaulted items rows.
Proof.
  intros items kind rows H.
  destruct (RowFacts.to_df_rows _ _ _ H) as (ts & Hi & _ & Hall).
  injection Hi as <-. clear H.
  induction Hall as [|t r ts rs [Hr _] _ IH]; [constructor|].
  constructor; [|exact IH].
  destruct (RowFacts.to_row_inv _ _ _ Hr) as (entries & joined & -> & _ & ->).
  exists entries. split; [reflexivity|].
  apply RowFacts.field_str_defaulted.
Qed.

(** C1 as stated fails: a priority that is none of High, Medium and Low
    reaches the row as it is. *)
Lemma priority_is_not_validated :
  dict_lookup "priority" [("id", PyStr "T1"); ("priority", PyStr "Critical")]
    = Some (PyStr "Critical")
  /\ valid_priority (PyStr "Critical") = false
  /\ exists r,
       to_df (PyList [Sample.critical_item]) "Positive" = Returned [r]
       /\ col_Priority r = PyStr "Critical"
       /\ col_Priority r <> PyStr "Medium".
Proof.
  split; [reflexivity|]. split; [reflexivity|].
  eexists. split; [reflexivity|]. split; [reflexivity|]. discriminate.
Qed.

(** The priorities of three items: one of the three values, another
    value, and no key. *)
Lemma to_df_priority_default_witness :
  exists rows,
    to_df (PyList [Sample.login_item; Sample.critical_item; PyDict []]) "Negative"
      = Returned rows
    /\ map col_Priority rows = [PyStr "High"; PyStr "Critical"; PyStr "Medium"]
    /\ Forall2 priority_defaulted
         [Sample.login_item; Sample.critical_item; PyDict []] rows.
Proof.
  eexists. split; [reflexivity|]. split; [reflexivity|].
  apply (to_df_priority_default _ "Negative"). reflexivity.
Defined.

(* ================================================================= *)
(** ** The master table *)

Module TableFacts.

Lemma build_df_all_inv (parsed pos neg : pyobj) (df_all : DataFrame) :
  build_df_all parsed = Returned (pos, neg, df_all) ->
  exists entries df_pos df_neg,
    parsed = PyDict entries
    /\ pos = field "positive" (PyList []) entries
    /\ neg = field "negative" (PyList []) entries
    /\ to_df pos "Positive" = Returned df_pos
    /\ to_df neg "Negative" = Returned df_neg
    /\ df_all = df_pos ++ df_neg.
Proof.
  unfold build_df_all.
  destruct parsed as [| | | | |items|entries]; try discriminate.
  cbn [get bind]. fold (field "positive" (PyList []) entries).
  fold (field "negative" (PyList []) entries).
  destruct (to_df (field "positive" (PyList []) entries) "Positive")
    as [df_pos|e] eqn:Hp; cbn [bind]; [|discriminate].
  destruct (to_df (field "negative" (PyList []) entries) "Negative")
    as [df_neg|e] eqn:Hn; cbn [bind]; [|discriminate].
  intros [= <- <- <-]. now exists entries, df_pos, df_neg.
Qed.

Lemma build_df_all_laid_out (parsed pos neg : pyobj) (df_all : DataFrame) :
  build_df_all parsed = Returned (pos, neg, df_all) ->
  laid_out pos neg df_all.
Proof.
  intros H. unfold laid_out.
  destruct (build_df_all_inv _ _ _ _ H)
    as (entries & df_pos & df_neg & _ & _ & _ & Hp & Hn & ->).
  destruct (RowFacts.to_df_rows _ _ _ Hp) as (ts_pos & Hip & Hlp & Hrp).
  destruct (RowFacts.to_df_rows _ _ _ Hn) as (ts_neg & Hin & Hln & Hrn).
  exists ts_pos, ts_neg, df_pos, df_neg.
  repeat (split; [assumption || reflexivity|]).
  split; [|split; assumption].
  rewrite length_app.
  now rewrite <- (Forall2_length Hrp), <- (Forall2_length Hrn).
Qed.

Lemma build_df_all_total (entries : list (string * pyobj)) :
  test_cases_or_absent (dict_lookup "positive" entries) = true ->
  test_cases_or_absent (dict_lookup "negative" entries) = true ->
  exists df_all,
    build_df_all (PyDict entries)
    = Returned (field "positive" (PyList []) entries,
                field "negative" (PyList []) entries, df_all).
Proof.
  intros Hp Hn. unfold build_df_all. cbn [get bind].
  fold (field "positive" (PyList []) entries).
  fold (field "negative" (PyList []) entries).
  assert (Hdf : forall key kind,
             test_cases_or_absent (dict_lookup key entries) = true ->
             exists df, to_df (field key (PyList []) entries) kind = Returned df).
  { intros key kind Hk. unfold field, to_df.
    destruct (dict_lookup key entries) as [v|]; cbn in *.
    - destruct v; try discriminate. cbn.
      apply RowFacts.to_df_loop_total, Hk.
    - now eexists. }
  destruct (Hdf "positive" "Positive" Hp) as [df_pos ->].
  destruct (Hdf "negative" "Negative" Hn) as [df_neg ->].
  cbn [bind]. now eexists.
Qed.

End TableFacts.

(* ================================================================= *)
(** ** Running the script *)

Section ScriptFacts.

Variable OPENAI_API_KEY : string.
Variable chat_completion :
  string -> string -> list (string * string) -> completion.
Variable json_loads : string -> outcome pyobj.

Lemma logged_nil (w : world) : logged w [] = w.
Proof. destruct w; unfold logged; simpl. now rewrite app_nil_r. Qed.

Lemma logged_logged (w : world) (es es' : list event) :
  logged (logged w es) es' = logged w (es ++ es').
Proof. unfold logged; simpl. now rewrite app_assoc. Qed.

Lemma get_api_key_run (w : world) :
  get_api_key OPENAI_API_KEY w
  = (Continue (resolved_key OPENAI_API_KEY (session w)), w).
Proof. reflexivity. Qed.

(** What [process_output] does, case by case. *)
Lemma process_output_run (raw : option string) (w : world) :
  process_output json_loads raw w =
  match extract_json_raw json_loads raw with
  | Raised e => (Interrupted (Uncaught e), w)
  | Returned parsed =>
      match parse_failed parsed with
      | Raised e => (Interrupted (Uncaught e), w)
      | Returned true =>
          (Interrupted StopException,
           logged w [st_error "Could not parse JSON output. Please try again.";
                     st_text raw])
      | Returned false =>
          match build_df_all parsed with
          | Raised e => (Interrupted (Uncaught e), w)
          | Returned (pos, neg, df_all) =>
              match len pos, len neg with
              | Returned n_pos, Returned n_neg =>
                  (Continue tt,
                   logged (stored w df_all)
                     [st_success ("✅ Generated " ++ str_of_nat n_pos
                                  ++ " positive and " ++ str_of_nat n_neg
                                  ++ " negative test cases!")])
              | Raised e, _ | _, Raised e =>
                  (Interrupted (Uncaught e), stored w df_all)
              end
          end
      end
  end.
Proof.
  unfold process_output, sbind.
  destruct (extract_json_raw json_loads raw) as [parsed|e]; [|reflexivity].
  cbn [lift ret raise].
  destruct (parse_failed parsed) as [[|]|e]; cbn [lift ret raise];
    [unfold logged, emit, st_stop; cbn; now rewrite <- app_assoc| |reflexivity].
  destruct (build_df_all parsed) as [[[pos neg] df_all]|e];
    cbn [lift ret raise]; [|reflexivity].
  unfold read_session, write_session; cbn.
  destruct (len pos) as [n_pos|e]; cbn [lift ret raise]; [|reflexivity].
  destruct (len neg) as [n_neg|e]; cbn [lift ret raise]; reflexivity.
Qed.

(** What [generate] does, case by case: the two guards, the request and
    its failure, then [process_output] on the answer. *)
Lemma generate_run (ac : string) (w : world) :
  generate OPENAI_API_KEY chat_completion json_loads ac w =
  let k := resolved_key OPENAI_API_KEY (session w) in
  if negb (truthy k) then
    (Interrupted StopException,
     logged w [st_error "⚠️ Please enter an API key in the sidebar first."])
  else if negb (truthy ac) then
    (Interrupted StopException,
     logged w [st_warning "⚠️ Please enter some acceptance criteria first."])
  else
    match chat_completion k MODEL (messages_for (PROMPT_format ac)) with
    | Failure message =>
        (Interrupted StopException,
         logged w [request_for k ac; st_error ("Error: " ++ message)])
    | Completion raw =>
        process_output json_loads raw (logged w [request_for k ac])
    end.
Proof.
  unfold generate, call_openai, sbind, try_except_Exception.
  rewrite !get_api_key_run. cbv zeta.
  destruct (truthy (resolved_key OPENAI_API_KEY (session w))) eqn:Hk;
    cbn [negb]; [|reflexivity].
  cbn [ret].
  destruct (truthy ac) eqn:Hac; cbn [negb]; [|reflexivity].
  cbn [ret]. rewrite get_api_key_run, Hk. cbn [negb].
  unfold emit at 1. cbn [trace session].
  fold (messages_for (PROMPT_format ac)).
  destruct (chat_completion _ MODEL (messages_for (PROMPT_format ac)))
    as [raw|message]; cbn [ret raise].
  - reflexivity.
  - unfold emit, st_stop, logged, request_for. cbn [exn_str trace session].
    now rewrite <- app_assoc.
Qed.

Lemma page_run (inp : inputs) (w : world) :
  page OPENAI_API_KEY chat_completion json_loads inp w =
  if generate_btn inp
  then generate OPENAI_API_KEY chat_completion json_loads (ac inp)
         (after_sidebar inp w)
  else (Continue tt, after_sidebar inp w).
Proof.
  unfold page, sidebar, after_sidebar, sbind.
  destruct (truthy (key_input inp)); cbn;
    destruct (generate_btn inp); reflexivity.
Qed.

Lemma after_sidebar_last_results (inp : inputs) (w : world) :
  last_results (session (after_sidebar inp w)) = last_results (session w).
Proof. unfold after_sidebar. now destruct (truthy (key_input inp)). Qed.

Lemma after_sidebar_network_calls (inp : inputs) (w : world) :
  network_calls (trace (after_sidebar inp w)) = network_calls (trace w).
Proof.
  unfold after_sidebar, network_calls.
  destruct (truthy (key_input inp)); [|reflexivity].
  cbn [trace]. rewrite filter_app. cbn. now rewrite app_nil_r.
Qed.

(** A run of [process_output] either leaves the session as it was, or
    has gone through every step and stored the master table. *)
Lemma process_output_session (raw : option string) (w : world)
      (res : step unit) (w' : world) :
  process_output json_loads raw w = (res, w') ->
  (session w' = session w /\ res <> Continue tt)
  \/ (exists parsed pos neg df_all,
        res = Continue tt
        /\ extract_json_raw json_loads raw = Returned parsed
        /\ parse_failed parsed = Returned false
        /\ build_df_all parsed = Returned (pos, neg, df_all)
        /\ session w' = session (stored w df_all)).
Proof.
  rewrite process_output_run.
  destruct (extract_json_raw json_loads raw) as [parsed|e];
    [|intros [= <- <-]; left; split; [reflexivity|discriminate]].
  destruct (parse_failed parsed) as [[|]|e] eqn:Hf;
    try (intros [= <- <-]; left; split; [reflexivity|discriminate]).
  destruct (build_df_all parsed) as [[[pos neg] df_all]|e] eqn:Hb;
    [|intros [= <- <-]; left; split; [reflexivity|discriminate]].
  destruct (TableFacts.build_df_all_laid_out _ _ _ _ Hb)
    as (ts_pos & ts_neg & _ & _ & _ & _ & -> & -> & _).
  intros [= <- <-]. right. exists parsed, pos, neg, df_all.
  repeat split; assumption.
Qed.

End ScriptFacts.

(* ================================================================= *)
(** ** The handler of the generate button *)

Section HandlerFacts.

Variable OPENAI_API_KEY : string.
Variable chat_completion :
  string -> string -> list (string * string) -> completion.
Variable json_loads : string -> outcome pyobj.

(** C8. On a click of the generate button: when no key is available the
    run stops on the error about the key, and when a key is available
    but the criteria are empty it stops on the warning about the
    criteria; in both cases no request has been sent to the model and
    the session is what the sidebar left. *)
Theorem generate_guards_stop_before_request :
  forall (inp : inputs) (w : world),
    generate_btn inp = true ->
    let w1 := after_sidebar inp w in
    let k := resolved_key OPENAI_API_KEY (session w1) in
    (truthy k = false ->
     exists w',
       page OPENAI_API_KEY chat_completion json_loads inp w
       = (Interrupted StopException, w')
       /\ trace w' = trace w1
                     ++ [st_error "⚠️ Please enter an API key in the sidebar first."]
       /\ session w' = session w1
       /\ network_calls (trace w') = network_calls (trace w))
    /\ (truthy k = true -> truthy (ac inp) = false ->
        exists w',
          page OPENAI_API_KEY chat_completion json_loads inp w
          = (Interrupted StopException, w')
          /\ trace w' = trace w1
                        ++ [st_warning "⚠️ Please enter some acceptance criteria first."]
          /\ session w' = session w1
          /\ network_calls (trace w') = network_calls (trace w)).
Proof.
  intros inp w Hbtn w1 k.
  assert (Hcalls : forall e, is_request e = false ->
            network_calls (trace (logged w1 [e])) = network_calls (trace w)).
  { intros e He. unfold network_calls, logged. cbn [trace].
    rewrite filter_app, length_app. cbn [filter]. rewrite He. cbn [List.length].
    rewrite Nat.add_0_r. apply after_sidebar_network_calls. }
  split.
  - intros Hk. eexists. rewrite page_run, Hbtn, generate_run. cbv zeta.
    fold w1. fold k. rewrite Hk. cbn [negb].
    split; [reflexivity|]. split; [reflexivity|]. split; [reflexivity|].
    now apply Hcalls.
  - intros Hk Hac. eexists. rewrite page_run, Hbtn, generate_run. cbv zeta.
    fold w1. fold k. rewrite Hk, Hac. cbn [negb].
    split; [reflexivity|]. split; [reflexivity|]. split; [reflexivity|].
    now apply Hcalls.
Qed.

(** C2, as the code has it. An extracted object is a parse failure
    exactly when it has neither the [positive] nor the [negative] key:
    the run then stops on the error, shows the raw output, and stores no
    table. With at least one of the two keys the object is accepted, the
    missing list is read as empty, and the master table built from it is
    stored. *)
Theorem parse_failure_iff_both_keys_absent :
  forall (raw : option string) (entries : list (string * pyobj)) (w : world),
    extract_json_raw json_loads raw = Returned (PyDict entries) ->
    let has key := existsb (String.eqb key) (dict_keys entries) in
    parse_failed (PyDict entries)
    = Returned (negb (has "positive") && negb (has "negative"))
    /\ (has "positive" = false -> has "negative" = false ->
        process_output json_loads raw w
        = (Interrupted StopException,
           logged w [st_error "Could not parse JSON output. Please try again.";
                     st_text raw]))
    /\ (has "positive" || has "negative" = true ->
        forall pos neg df_all,
          build_df_all (PyDict entries) = Returned (pos, neg, df_all) ->
          pos = field "positive" (PyList []) entries
          /\ neg = field "negative" (PyList []) entries
          /\ exists w',
               process_output json_loads raw w = (Continue tt, w')
               /\ last_results (session w') = Some df_all).
Proof.
  intros raw entries w Hx has.
  assert (Hpf : parse_failed (PyDict entries)
                = Returned (negb (has "positive") && negb (has "negative"))).
  { unfold parse_failed, not_in, contains. cbn [bind]. fold (has "positive").
    fold (has "negative").
    destruct (has "positive"); reflexivity. }
  split; [exact Hpf|]. split.
  - intros Hp Hn. rewrite process_output_run, Hx, Hpf, Hp, Hn. reflexivity.
  - intros Hany pos neg df_all Hb.
    destruct (TableFacts.build_df_all_inv _ _ _ _ Hb)
      as (entries' & df_pos & df_neg & [= <-] & Hpos & Hneg & _).
    split; [exact Hpos|]. split; [exact Hneg|].
    destruct (TableFacts.build_df_all_laid_out _ _ _ _ Hb)
      as (ts_pos & ts_neg & _ & _ & _ & _ & Hlp & Hln & _).
    eexists. rewrite process_output_run, Hx, Hpf, Hb, Hlp, Hln.
    apply orb_true_iff in Hany.
    replace (negb (has "positive") && negb (has "negative")) with false
      by (destruct Hany as [-> | ->]; [reflexivity|now rewrite andb_false_r]).
    split; reflexivity.
Qed.

(** C7. For an object accepted as a success, a run that completes has
    stored a master table of exactly [len(pos) + len(neg)] rows: the rows
    of the positive items, tagged "Positive", before those of the
    negative items, tagged "Negative", each group in the order of its
    list. When the two lists hold test cases the run does complete. *)
Theorem master_table_layout :
  forall (raw : option string) (parsed : pyobj) (w : world),
    extract_json_raw json_loads raw = Returned parsed ->
    parse_failed parsed = Returned false ->
    (forall entries,
        parsed = PyDict entries ->
        test_cases_or_absent (dict_lookup "positive" entries) = true ->
        test_cases_or_absent (dict_lookup "negative" entries) = true ->
        exists w', process_output json_loads raw w = (Continue tt, w'))
    /\ (forall w',
          process_output json_loads raw w = (Continue tt, w') ->
          exists pos neg df_all,
            get parsed "positive" (PyList []) = Returned pos
            /\ get parsed "negative" (PyList []) = Returned neg
            /\ last_results (session w') = Some df_all
            /\ laid_out pos neg df_all).
Proof.
  intros raw parsed w Hx Hpf. split.
  - intros entries -> Hp Hn.
    destruct (TableFacts.build_df_all_total entries Hp Hn) as [df_all Hb].
    destruct (TableFacts.build_df_all_laid_out _ _ _ _ Hb)
      as (ts_pos & ts_neg & _ & _ & _ & _ & Hlp & Hln & _).
    eexists. rewrite process_output_run, Hx, Hpf, Hb, Hlp, Hln. reflexivity.
  - intros w' Hrun.
    destruct (process_output_session _ _ _ _ _ Hrun)
      as [[_ Hne]|(parsed' & pos & neg & df_all & _ & Hx' & _ & Hb & Hs)];
      [now contradiction Hne|].
    rewrite Hx in Hx'. injection Hx' as <-.
    exists pos, neg, df_all.
    destruct (TableFacts.build_df_all_inv _ _ _ _ Hb)
      as (entries & df_pos & df_neg & -> & -> & -> & _).
    split; [reflexivity|]. split; [reflexivity|].
    split; [now rewrite Hs|].
    now apply TableFacts.build_df_all_laid_out with (parsed := PyDict entries).
Qed.

(** C9. A failure of the request or of the parse ends the run and leaves
    [last_results] as it was; whatever the run does, [last_results]
    either is what it was or is the whole master table of a run that has
    completed. *)
Theorem failures_leave_last_results :
  forall (inp : inputs) (w : world) (res : step unit) (w' : world),
    page OPENAI_API_KEY chat_completion json_loads inp w = (res, w') ->
    let w1 := after_sidebar inp w in
    let k := resolved_key OPENAI_API_KEY (session w1) in
    let reply := chat_completion k MODEL (messages_for (PROMPT_format (ac inp))) in
    (last_results (session w') = last_results (session w)
     \/ exists raw parsed pos neg df_all,
          res = Continue tt
          /\ reply = Completion raw
          /\ extract_json_raw json_loads raw = Returned parsed
          /\ build_df_all parsed = Returned (pos, neg, df_all)
          /\ laid_out pos neg df_all
          /\ last_results (session w') = Some df_all)
    /\ (generate_btn inp = true -> truthy k = true -> truthy (ac inp) = true ->
        forall message,
          reply = Failure message ->
          res = Interrupted StopException
          /\ last_results (session w') = last_results (session w)
          /\ trace w' = trace w1 ++ [request_for k (ac inp);
                                     st_error ("Error: " ++ message)])
    /\ (generate_btn inp = true -> truthy k = true -> truthy (ac inp) = true ->
        forall raw parsed,
          reply = Completion raw ->
          extract_json_raw json_loads raw = Returned parsed ->
          parse_failed parsed = Returned true ->
          res = Interrupted StopException
          /\ last_results (session w') = last_results (session w)
          /\ trace w' = trace w1 ++ [request_for k (ac inp);
                                     st_error "Could not parse JSON output. Please try again.";
                                     st_text raw]).
Proof.
  intros inp w res w' Hrun w1 k reply.
  rewrite page_run in Hrun. fold w1 in Hrun.
  pose proof (after_sidebar_last_results inp w) as Hside. fold w1 in Hside.
  split; [|split].
  - destruct (generate_btn inp).
    + rewrite generate_run in Hrun. cbv zeta in Hrun. fold k in Hrun.
      destruct (truthy k); cbn [negb] in Hrun;
        [|injection Hrun as <- <-; now left].
      destruct (truthy (ac inp)); cbn [negb] in Hrun;
        [|injection Hrun as <- <-; now left].
      fold reply in Hrun.
      destruct reply as [raw|message] eqn:Hreply;
        [|injection Hrun as <- <-; now left].
      destruct (process_output_session _ _ _ _ _ Hrun)
        as [[Hs _]|(parsed & pos & neg & df_all & -> & Hx & _ & Hb & Hs)].
      * left. now rewrite Hs.
      * right. exists raw, parsed, pos, neg, df_all.
        repeat split; try assumption.
        -- now apply TableFacts.build_df_all_laid_out with (parsed := parsed).
        -- now rewrite Hs.
    + injection Hrun as <- <-. now left.
  - intros Hbtn Hk Hac message Hreply.
    rewrite Hbtn, generate_run in Hrun. cbv zeta in Hrun. fold k in Hrun.
    rewrite Hk, Hac in Hrun. cbn [negb] in Hrun. fold reply in Hrun.
    rewrite Hreply in Hrun. injection Hrun as <- <-.
    repeat split. exact Hside.
  - intros Hbtn Hk Hac raw parsed Hreply Hx Hpf.
    rewrite Hbtn, generate_run in Hrun. cbv zeta in Hrun. fold k in Hrun.
    rewrite Hk, Hac in Hrun. cbn [negb] in Hrun. fold reply in Hrun.
    rewrite Hreply, process_output_run, Hx, Hpf in Hrun.
    injection Hrun as <- <-. rewrite logged_logged.
    repeat split. exact Hside.
Qed.

(** C10. A text that is well-formed JSON for a value other than an object
    is returned by [extract_json] as that value; when the value is a
    number, a boolean or null, the membership test of the handler raises
    [TypeError] and the run ends on that exception, not on the parse
    error. *)
Theorem scalar_json_breaks_membership_test :
  forall (text : string) (v : pyobj),
    json_loads text = Returned v ->
    (forall entries, v <> PyDict entries) ->
    extract_json json_loads text = Returned v
    /\ (is_scalar v = true ->
        contains "positive" v = Raised TypeError
        /\ forall w,
             process_output json_loads (Some text) w
             = (Interrupted (Uncaught TypeError), w)).
Proof.
  intros text v Hloads _.
  pose proof (extract_json_parsed json_loads text v Hloads) as Hx.
  split; [exact Hx|].
  intros Hscalar.
  assert (Hc : contains "positive" v = Raised TypeError)
    by (destruct v; try discriminate; reflexivity).
  split; [exact Hc|].
  intros w. rewrite process_output_run. cbn [extract_json_raw]. rewrite Hx.
  unfold parse_failed, not_in. rewrite Hc. reflexivity.
Qed.

End HandlerFacts.

(* ================================================================= *)
(** ** The properties at work on the reference decoder *)

(** The output of the scenario, read as a whole. *)
Lemma extract_json_round_trip_witness :
  Json.loads Sample.login_text = Returned Sample.login_object
  /\ exists parsed,
       extract_json Json.loads Sample.login_text = Returned parsed
       /\ parsed = Sample.login_object
       /\ contains "positive" parsed = Returned true
       /\ contains "negative" parsed = Returned true
       /\ get parsed "positive" PyNone = Returned (PyList [Sample.login_item])
       /\ get parsed "negative" PyNone = Returned (PyList []).
Proof.
  split; [vm_compute; reflexivity|].
  apply (extract_json_round_trip Json.loads Sample.login_text
           [("positive", PyList [Sample.login_item]); ("negative", PyList [])]
           [Sample.login_item] []).
  - vm_compute; reflexivity.
  - reflexivity.
  - reflexivity.
Defined.

(** The empty text, and a text whose block of braces is not JSON. *)
Lemma extract_json_fallback_witness :
  (raises (Json.loads "") = true
   /\ Re.brace_span "" = None
   /\ extract_json Json.loads "" = Returned (PyDict [("raw_text", PyStr "")]))
  /\ (raises (Json.loads "see {oops} here") = true
      /\ Re.brace_span "see {oops} here" = Some "{oops}"
      /\ raises (Json.loads "{oops}") = true
      /\ extract_json Json.loads "see {oops} here"
         = Returned (PyDict [("raw_text", PyStr "see {oops} here")])).
Proof.
  split.
  - split; [vm_compute; reflexivity|]. split; [reflexivity|].
    apply (proj1 (extract_json_fallback Json.loads) "").
    + vm_compute; reflexivity.
    + intros block H. vm_compute in H. discriminate H.
  - split; [vm_compute; reflexivity|]. split; [vm_compute; reflexivity|].
    split; [vm_compute; reflexivity|].
    apply (proj1 (extract_json_fallback Json.loads) "see {oops} here").
    + vm_compute; reflexivity.
    + intros block H. vm_compute in H. injection H as <-.
      vm_compute; reflexivity.
Defined.

(** The output of the scenario between two sentences of prose. *)
Lemma extract_json_embedded_witness :
  raises (Json.loads Sample.prose_text) = true
  /\ Re.first_index "{" Sample.prose_text = Some 20
  /\ Re.last_index "}" Sample.prose_text = Some 140
  /\ substring 20 (140 - 20 + 1) Sample.prose_text = Sample.login_text
  /\ Re.search Sample.prose_text = Some (substring 20 (140 - 20 + 1) Sample.prose_text)
  /\ extract_json Json.loads Sample.prose_text = Returned Sample.login_object.
Proof.
  split; [vm_compute; reflexivity|]. split; [vm_compute; reflexivity|].
  split; [vm_compute; reflexivity|]. split; [vm_compute; reflexivity|].
  apply (extract_json_embedded Json.loads Sample.prose_text 20 140
           Sample.login_object).
  - vm_compute; reflexivity.
  - vm_compute; reflexivity.
  - vm_compute; reflexivity.
  - lia.
  - vm_compute; reflexivity.
Defined.

(** C2 as stated fails: an object with the [positive] key only is
    accepted, and a table of one row is stored for it. *)
Lemma one_key_is_accepted :
  exists w' r,
    Json.loads Sample.only_positive_text
    = Returned (PyDict [("positive", PyList [PyDict [("id", PyStr "P1")]])])
    /\ contains "negative" (PyDict [("positive", PyList [PyDict [("id", PyStr "P1")]])])
       = Returned false
    /\ page "" (Sample.answering Sample.only_positive_text) Json.loads
            (Sample.click "User can log in") Sample.keyed_world
       = (Continue tt, w')
    /\ last_results (session w') = Some [r]
    /\ col_Type r = "Positive"
    /\ col_ID r = PyStr "P1".
Proof.
  do 2 eexists.
  split; [vm_compute; reflexivity|]. split; [reflexivity|].
  split; [vm_compute; reflexivity|].
  split; [reflexivity|]. split; reflexivity.
Qed.

(** An object with one key is accepted; a text without JSON is a parse
    failure. *)
Lemma parse_failure_iff_both_keys_absent_witness :
  let entries := [("positive", PyList [PyDict [("id", PyStr "P1")]])] in
  let raw := Some Sample.only_positive_text in
  extract_json_raw Json.loads raw = Returned (PyDict entries)
  /\ parse_failed (PyDict entries) = Returned false
  /\ (exists w',
         process_output Json.loads raw Sample.keyed_world = (Continue tt, w')
         /\ option_map (@List.length row) (last_results (session w')) = Some 1)
  /\ extract_json_raw Json.loads (Some "no json here")
     = Returned (PyDict [("raw_text", PyStr "no json here")])
  /\ process_output Json.loads (Some "no json here") Sample.keyed_world
     = (Interrupted StopException,
        logged Sample.keyed_world
          [st_error "Could not parse JSON output. Please try again.";
           st_text (Some "no json here")]).
Proof.
  intros entries raw.
  assert (Hx : extract_json_raw Json.loads raw = Returned (PyDict entries))
    by (vm_compute; reflexivity).
  assert (Hy : extract_json_raw Json.loads (Some "no json here")
               = Returned (PyDict [("raw_text", PyStr "no json here")]))
    by (vm_compute; reflexivity).
  split; [exact Hx|].
  destruct (parse_failure_iff_both_keys_absent Json.loads raw entries
              Sample.keyed_world Hx) as (Hpf & _ & Hok).
  split; [exact Hpf|]. split.
  - destruct (Hok eq_refl _ _ _ eq_refl) as (_ & _ & w' & Hrun & Hlast).
    exists w'. split; [exact Hrun|]. now rewrite Hlast.
  - split; [exact Hy|].
    destruct (parse_failure_iff_both_keys_absent Json.loads _ _
                Sample.keyed_world Hy) as (_ & Hstop & _).
    exact (Hstop eq_refl eq_refl).
Defined.

(** The scenario: one positive test, no negative one, one row. *)
Lemma master_table_layout_witness :
  extract_json_raw Json.loads (Some Sample.login_text) = Returned Sample.login_object
  /\ parse_failed Sample.login_object = Returned false
  /\ exists w' df_all,
       process_output Json.loads (Some Sample.login_text) Sample.keyed_world
       = (Continue tt, w')
       /\ last_results (session w') = Some df_all
       /\ laid_out (PyList [Sample.login_item]) (PyList []) df_all
       /\ List.length df_all = 1.
Proof.
  assert (Hx : extract_json_raw Json.loads (Some Sample.login_text)
               = Returned Sample.login_object) by (vm_compute; reflexivity).
  assert (Hpf : parse_failed Sample.login_object = Returned false)
    by reflexivity.
  split; [exact Hx|]. split; [exact Hpf|].
  destruct (master_table_layout Json.loads _ _ Sample.keyed_world Hx Hpf)
    as [Htotal Hshape].
  destruct (Htotal _ eq_refl eq_refl eq_refl) as [w' Hrun].
  destruct (Hshape w' Hrun) as (pos & neg & df_all & Hp & Hn & Hlast & Hlaid).
  injection Hp as <-. injection Hn as <-.
  exists w', df_all. split; [exact Hrun|]. split; [exact Hlast|].
  split; [exact Hlaid|].
  destruct Hlaid as (ts_pos & ts_neg & _ & _ & Hip & Hin & _ & _ & _ & Hlen & _).
  injection Hip as <-. injection Hin as <-. exact Hlen.
Defined.

(** A click without any key, and a click with a key and no criteria. *)
Lemma generate_guards_stop_before_request_witness :
  (exists w',
      page "" (Sample.answering Sample.login_text) Json.loads
           (Sample.click "User can log in") Sample.fresh_world
      = (Interrupted StopException, w')
      /\ network_calls (trace w') = 0
      /\ last_results (session w') = None)
  /\ (exists w',
         page "" (Sample.answering Sample.login_text) Json.loads
              (Sample.click "") Sample.keyed_world
         = (Interrupted StopException, w')
         /\ network_calls (trace w') = 0
         /\ last_results (session w') = Some Sample.earlier_table).
Proof.
  split.
  - destruct (proj1 (generate_guards_stop_before_request ""
                       (Sample.answering Sample.login_text) Json.loads
                       (Sample.click "User can log in") Sample.fresh_world
                       eq_refl) eq_refl)
      as (w' & Hrun & _ & Hs & Hcalls).
    exists w'. split; [exact Hrun|]. split; [exact Hcalls|]. now rewrite Hs.
  - destruct (proj2 (generate_guards_stop_before_request ""
                       (Sample.answering Sample.login_text) Json.loads
                       (Sample.click "") Sample.keyed_world
                       eq_refl) eq_refl eq_refl)
      as (w' & Hrun & _ & Hs & Hcalls).
    exists w'. split; [exact Hrun|]. split; [exact Hcalls|]. now rewrite Hs.
Defined.

(** A request that fails and an answer in prose both leave the earlier
    table in place. *)
Lemma failures_leave_last_results_witness :
  let request_fails :=
    page "" (Sample.failing "rate limit") Json.loads
         (Sample.click "User can log in") Sample.keyed_world in
  let parse_fails :=
    page "" (Sample.answering "Sorry, I cannot help.") Json.loads
         (Sample.click "User can log in") Sample.keyed_world in
  (fst request_fails = Interrupted StopException
   /\ last_results (session (snd request_fails)) = Some Sample.earlier_table)
  /\ (fst parse_fails = Interrupted StopException
      /\ last_results (session (snd parse_fails)) = Some Sample.earlier_table).
Proof.
  intros request_fails parse_fails. split.
  - destruct (failures_leave_last_results "" (Sample.failing "rate limit")
                Json.loads (Sample.click "User can log in") Sample.keyed_world
                (fst request_fails) (snd request_fails)
                (surjective_pairing request_fails))
      as (_ & Hreq & _).
    destruct (Hreq eq_refl eq_refl eq_refl "rate limit" eq_refl) as (Hres & Hlast & _).
    split; [exact Hres|exact Hlast].
  - destruct (failures_leave_last_results ""
                (Sample.answering "Sorry, I cannot help.")
                Json.loads (Sample.click "User can log in") Sample.keyed_world
                (fst parse_fails) (snd parse_fails)
                (surjective_pairing parse_fails))
      as (_ & _ & Hparse).
    assert (Hx : extract_json_raw Json.loads (Some "Sorry, I cannot help.")
                 = Returned (PyDict [("raw_text", PyStr "Sorry, I cannot help.")]))
      by (vm_compute; reflexivity).
    destruct (Hparse eq_refl eq_refl eq_refl _ _ eq_refl Hx eq_refl)
      as (Hres & Hlast & _).
    split; [exact Hres|exact Hlast].
Defined.

(** The texts 5 and [1,2]. *)
Lemma scalar_json_breaks_membership_test_witness :
  (Json.loads "5" = Returned (PyInt 5)
   /\ extract_json Json.loads "5" = Returned (PyInt 5)
   /\ contains "positive" (PyInt 5) = Raised TypeError
   /\ process_output Json.loads (Some "5") Sample.keyed_world
      = (Interrupted (Uncaught TypeError), Sample.keyed_world))
  /\ (Json.loads "[1,2]" = Returned (PyList [PyInt 1; PyInt 2])
      /\ extract_json Json.loads "[1,2]" = Returned (PyList [PyInt 1; PyInt 2])).
Proof.
  assert (H5 : Json.loads "5" = Returned (PyInt 5)) by (vm_compute; reflexivity).
  assert (Hl : Json.loads "[1,2]" = Returned (PyList [PyInt 1; PyInt 2]))
    by (vm_compute; reflexivity).
  split.
  - destruct (scalar_json_breaks_membership_test Json.loads "5" (PyInt 5) H5
                ltac:(discriminate)) as (Hx & Hs).
    destruct (Hs eq_refl) as (Hc & Hrun).
    split; [exact H5|]. split; [exact Hx|]. split; [exact Hc|]. apply Hrun.
  - split; [exact Hl|].
    apply (scalar_json_breaks_membership_test Json.loads "[1,2]" _ Hl
             ltac:(discriminate)).
Defined.

(* ================================================================= *)
(** ** The scenarios of the specification *)

(** The model returns the login object: the table has exactly one row,
    tagged Positive, with the three steps on three lines and the
    priority High. *)
Example scenario_login :
  let run := page "" (Sample.answering Sample.login_text) Json.loads
                  (Sample.click "User can log in") Sample.keyed_world in
  fst run = Continue tt
  /\ last_results (session (snd run))
     = Some [{| col_Type := "Positive";
                col_ID := PyStr "P1";
                col_Title := PyStr "Login ok";
                col_Preconditions := PyStr "";
                col_Steps := "enter email" ++ NL ++ "enter pw" ++ NL ++ "submit";
                col_Expected_Result := PyStr "";
                col_Priority := PyStr "High" |}]
  /\ network_calls (trace (snd run)) = 1.
Proof. vm_compute. repeat split. Qed.

(** The model returns prose only: the run stops on the parse error, the
    raw text is shown and the table is not touched. *)
Example scenario_prose_only :
  page "" (Sample.answering "Sorry, I cannot help.") Json.loads
       (Sample.click "User can log in") Sample.keyed_world
  = (Interrupted StopException,
     logged Sample.keyed_world
       [request_for "sk-test" "User can log in";
        st_error "Could not parse JSON output. Please try again.";
        st_text (Some "Sorry, I cannot help.")]).
Proof. vm_compute. reflexivity. Qed.

(* ================================================================= *)
(** * Further properties of the code *)

(** ** The shape of the block the regular expression finds *)

Module BlockFacts.
Import Re.

Lemma append_assoc (s t u : string) :
  ((s ++ t) ++ u)%string = (s ++ t ++ u)%string.
Proof.
  induction s as [|a rest IH]; simpl; [reflexivity|]. now rewrite IH.
Qed.

Lemma has_char_app (c : ascii) (s t : string) :
  has_char c (s ++ t) = has_char c s || has_char c t.
Proof.
  induction s as [|a rest IH]; simpl; [reflexivity|].
  now rewrite IH, orb_assoc.
Qed.

(** The greedy star fails exactly when no closing brace is left. *)
Lemma dotstar_none (s : string) :
  match_dotstar_rbrace s = None <-> has_char "}" s = false.
Proof.
  induction s as [|c rest IH]; simpl; [tauto|].
  destruct (match_dotstar_rbrace rest) as [m|].
  - split; [discriminate|]. intros H. apply orb_false_iff in H as [_ H].
    apply IH in H. discriminate.
  - assert (Hr : has_char "}" rest = false) by now apply IH.
    rewrite Hr, orb_false_r.
    destruct (Ascii.eqb c "}"); split; congruence.
Qed.

Lemma dotstar_some (s m : string) :
  match_dotstar_rbrace s = Some m ->
  exists mid suf,
    s = (mid ++ String "}" suf)%string
    /\ has_char "}" suf = false
    /\ m = (mid ++ "}")%string.
Proof.
  revert m. induction s as [|c rest IH]; simpl; [discriminate|]. intros m.
  destruct (match_dotstar_rbrace rest) as [m'|] eqn:Hrest.
  - intros [= <-]. destruct (IH m' eq_refl) as (mid & suf & -> & Hsuf & ->).
    now exists (String c mid), suf.
  - destruct (Ascii.eqb_spec c "}") as [->|_]; [|discriminate].
    intros [= <-]. exists EmptyString, rest.
    split; [reflexivity|]. split; [now apply dotstar_none|reflexivity].
Qed.

Lemma dotstar_intro (mid suf : string) :
  has_char "}" suf = false ->
  match_dotstar_rbrace (mid ++ String "}" suf) = Some (mid ++ "}")%string.
Proof.
  intros Hsuf. induction mid as [|c mid IH]; simpl.
  - apply dotstar_none in Hsuf. now rewrite Hsuf.
  - now rewrite IH.
Qed.

Lemma search_some (text block : string) :
  search text = Some block ->
  exists pre mid suf,
    text = (pre ++ String "{" (mid ++ String "}" suf))%string
    /\ has_char "{" pre = false
    /\ has_char "}" suf = false
    /\ block = String "{" (mid ++ "}")%string.
Proof.
  induction text as [|c rest IH]; [discriminate|].
  cbn [search match_here].
  destruct (Ascii.eqb_spec c "{") as [->|Hc].
  - destruct (match_dotstar_rbrace rest) as [m|] eqn:Hm; cbn [option_map].
    + intros [= <-]. destruct (dotstar_some _ _ Hm) as (mid & suf & -> & Hsuf & ->).
      now exists EmptyString, mid, suf.
    + intros H. destruct (IH H) as (pre & mid & suf & -> & _ & _ & _).
      apply dotstar_none in Hm. rewrite has_char_app in Hm. cbn in Hm.
      rewrite has_char_app in Hm. cbn in Hm.
      rewrite !orb_true_r in Hm. discriminate.
  - intros H. destruct (IH H) as (pre & mid & suf & -> & Hpre & Hsuf & ->).
    exists (String c pre), mid, suf.
    split; [reflexivity|]. split; [|now split].
    cbn. rewrite Hpre, orb_false_r. now apply Ascii.eqb_neq.
Qed.

Lemma search_intro (pre mid suf : string) :
  has_char "{" pre = false ->
  has_char "}" suf = false ->
  search (pre ++ String "{" (mid ++ String "}" suf))
  = Some (String "{" (mid ++ "}")%string).
Proof.
  intros Hpre Hsuf. induction pre as [|c pre IH].
  - cbn [append search match_here]. rewrite Ascii.eqb_refl.
    now rewrite dotstar_intro.
  - cbn in Hpre. apply orb_false_iff in Hpre as [Hc Hpre].
    cbn [append search match_here]. rewrite Hc. now apply IH.
Qed.

(** Whatever comes before an opening brace and after a later closing
    brace, there is a match. *)
Lemma search_found (pre mid suf : string) :
  search (pre ++ String "{" (mid ++ String "}" suf)) <> None.
Proof.
  induction pre as [|c pre IH].
  - cbn [append search match_here]. rewrite Ascii.eqb_refl.
    destruct (match_dotstar_rbrace (mid ++ String "}" suf)) as [m|] eqn:Hm;
      [discriminate|].
    apply dotstar_none in Hm. rewrite has_char_app in Hm. cbn in Hm.
    rewrite orb_true_r in Hm. discriminate.
  - cbn [append search].
    destruct (match_here (String c (pre ++ String "{" (mid ++ String "}" suf))));
      [discriminate|exact IH].
Qed.

End BlockFacts.

(** X1. [re.search] finds [block] in [text] exactly when the text splits
    into a part without opening brace, the block, and a part without
    closing brace, the block starting with an opening brace and ending
    with a closing one: the match starts at the first opening brace and
    ends at the last closing brace. *)
Theorem search_block_shape :
  forall text block : string,
    Re.search text = Some block <->
    exists pre mid suf,
      text = (pre ++ block ++ suf)%string
      /\ block = String "{" (mid ++ "}")%string
      /\ has_char "{" pre = false
      /\ has_char "}" suf = false.
Proof.
  intros text block. split.
  - intros H.
    destruct (BlockFacts.search_some _ _ H) as (pre & mid & suf & -> & Hp & Hs & ->).
    exists pre, mid, suf. split; [|now repeat split].
    cbn [append]. now rewrite BlockFacts.append_assoc.
  - intros (pre & mid & suf & -> & -> & Hp & Hs).
    rewrite <- (BlockFacts.search_intro pre mid suf Hp Hs).
    cbn [append]. now rewrite BlockFacts.append_assoc.
Qed.

(** X2. [re.search] finds nothing exactly when no opening brace of the
    text has a closing brace anywhere after it. *)
Theorem search_none_iff :
  forall text : string,
    Re.search text = None <->
    (forall pre mid suf : string,
        text <> (pre ++ String "{" (mid ++ String "}" suf))%string).
Proof.
  intros text. split.
  - intros H pre mid suf ->. now apply (BlockFacts.search_found pre mid suf).
  - intros H. destruct (Re.search text) as [block|] eqn:Hs; [|reflexivity].
    destruct (BlockFacts.search_some _ _ Hs) as (pre & mid & suf & Ht & _).
    now contradiction (H pre mid suf).
Qed.

(* ================================================================= *)
(** ** When the row builder succeeds and how it fails *)

Module BuildFacts.

Lemma expect_strs_not_all (items : list pyobj) :
  forallb is_str items = false -> expect_strs items = Raised TypeError.
Proof.
  induction items as [|x rest IH]; simpl; [discriminate|].
  destruct x; simpl; try reflexivity.
  intros H. now rewrite (IH H).
Qed.

Lemma join_joinable (sep : string) (v : pyobj) :
  joinable v = true -> exists s, join sep v = Returned s.
Proof.
  unfold join. destruct v as [| | | |s|items|entries]; try discriminate; cbn.
  - intros _. rewrite RowFacts.expect_strs_map. now eexists.
  - intros H. destruct (RowFacts.expect_strs_forallb _ H) as [ss ->].
    rewrite RowFacts.expect_strs_map. now eexists.
  - intros _. rewrite RowFacts.expect_strs_map. now eexists.
Qed.

Lemma join_not_joinable (sep : string) (v : pyobj) :
  joinable v = false -> join sep v = Raised TypeError.
Proof.
  unfold join. destruct v as [| | | |s|items|entries]; try discriminate;
    try reflexivity.
  cbn. intros H. now rewrite (expect_strs_not_all _ H).
Qed.

Lemma to_row_buildable (t : pyobj) (kind : string) :
  row_buildable t = true -> exists r, to_row t kind = Returned r.
Proof.
  destruct t as [| | | | |items|entries]; try discriminate.
  cbn [row_buildable]. rewrite RowFacts.to_row_dict. unfold field.
  destruct (dict_lookup "steps" entries) as [steps|].
  - intros H. destruct (join_joinable NL steps H) as [s ->]. cbn. now eexists.
  - intros _. cbn. now eexists.
Qed.

Lemma to_row_not_buildable (t : pyobj) (kind : string) :
  row_buildable t = false -> to_row t kind = Raised (row_error t).
Proof.
  destruct t as [| | | | |items|entries]; try reflexivity.
  cbn [row_buildable row_error]. rewrite RowFacts.to_row_dict. unfold field.
  destruct (dict_lookup "steps" entries) as [steps|]; [|discriminate].
  intros H. now rewrite (join_not_joinable NL steps H).
Qed.

(** The rows built so far do not change what the loop does next. *)
Lemma to_df_loop_acc (kind : string) (ts : list pyobj) :
  forall rows,
    to_df_loop ts kind rows
    = bind (to_df_loop ts kind []) (fun rs => Returned (rows ++ rs)).
Proof.
  induction ts as [|t rest IH]; intros rows; cbn.
  - now rewrite app_nil_r.
  - destruct (to_row t kind) as [r|e]; cbn; [|reflexivity].
    rewrite (IH (rows ++ [r])), (IH [r]).
    destruct (to_df_loop rest kind []) as [rs|e]; cbn; [|reflexivity].
    now rewrite <- app_assoc.
Qed.

Lemma to_df_loop_all (kind : string) (ts : list pyobj) :
  forallb row_buildable ts = true ->
  exists rs, to_df_loop ts kind [] = Returned rs
             /\ List.length rs = List.length ts.
Proof.
  induction ts as [|t rest IH]; cbn; intros H.
  - now exists [].
  - apply andb_true_iff in H as [Ht Hrest].
    destruct (to_row_buildable t kind Ht) as [r ->]. cbn.
    rewrite to_df_loop_acc. destruct (IH Hrest) as (rs & -> & Hlen). cbn.
    exists (r :: rs). split; [reflexivity|]. cbn. now rewrite Hlen.
Qed.

Lemma to_df_loop_first_bad (kind : string) (before : list pyobj)
      (t : pyobj) (after : list pyobj) :
  forallb row_buildable before = true ->
  row_buildable t = false ->
  to_df_loop (before ++ t :: after) kind [] = Raised (row_error t).
Proof.
  intros Hb Ht. induction before as [|b before IH]; cbn.
  - now rewrite (to_row_not_buildable t kind Ht).
  - cbn in Hb. apply andb_true_iff in Hb as [Hb0 Hb].
    destruct (to_row_buildable b kind Hb0) as [r ->]. cbn.
    rewrite to_df_loop_acc, (IH Hb). reflexivity.
Qed.

(** A list that is not all buildable has a first item that is not. *)
Lemma first_not_buildable (ts : list pyobj) :
  forallb row_buildable ts = false ->
  exists before t after,
    ts = before ++ t :: after
    /\ forallb row_buildable before = true
    /\ row_buildable t = false.
Proof.
  induction ts as [|x rest IH]; cbn; [discriminate|].
  destruct (row_buildable x) eqn:Hx; cbn.
  - intros H. destruct (IH H) as (before & t & after & -> & Hb & Ht).
    exists (x :: before), t, after. cbn. now rewrite Hx, Hb.
  - intros _. now exists [], x, rest.
Qed.

Lemma to_df_convertible (items : pyobj) (kind : string) :
  convertible items = true -> exists rows, to_df items kind = Returned rows.
Proof.
  unfold to_df.
  destruct items as [| | | |s|ts|entries]; try discriminate; cbn.
  - destruct s; [now eexists|discriminate].
  - intros H. destruct (to_df_loop_all kind ts H) as (rs & -> & _). now eexists.
  - destruct entries; [now eexists|discriminate].
Qed.

Lemma to_df_not_convertible (items : pyobj) (kind : string) :
  convertible items = false ->
  exists e, to_df items kind = Raised e
            /\ (e = TypeError \/ e = AttributeError).
Proof.
  unfold to_df.
  destruct items as [| | | |s|ts|entries]; cbn;
    try (intros _; exists TypeError; split; [reflexivity|now left]).
  - destruct s as [|c s]; [discriminate|]. intros _. exists AttributeError.
    destruct (RowFacts.str_chars_cons c s) as (char & chars & ->).
    split; [reflexivity|now right].
  - intros H. destruct (first_not_buildable ts H)
      as (before & t & after & -> & Hb & Ht).
    exists (row_error t). rewrite (to_df_loop_first_bad kind _ _ _ Hb Ht).
    split; [reflexivity|]. destruct t; cbn; auto.
  - destruct entries as [|[k v] rest]; [discriminate|]. intros _.
    exists AttributeError. split; [reflexivity|now right].
Qed.

End BuildFacts.

(** X3. [to_df] returns a data frame exactly for a list of mappings whose
    [steps], when present, is a list of strings, a mapping or a string
    (or for an empty mapping or an empty string in place of the list);
    for anything else it raises. *)
Theorem to_df_succeeds_iff :
  forall (items : pyobj) (kind : string),
    (exists rows, to_df items kind = Returned rows) <-> convertible items = true.
Proof.
  intros items kind. split.
  - intros [rows H]. destruct (convertible items) eqn:Hc; [reflexivity|].
    destruct (BuildFacts.to_df_not_convertible items kind Hc) as (e & He & _).
    congruence.
  - apply BuildFacts.to_df_convertible.
Qed.

(** X4. When a list has an item that cannot be turned into a row, [to_df]
    raises at the first such item and returns no row at all:
    [AttributeError] when the item is not a mapping, [TypeError] when
    its [steps] cannot be joined. *)
Theorem to_df_raises_at_first_bad_item :
  forall (before : list pyobj) (t : pyobj) (after : list pyobj) (kind : string),
    forallb row_buildable before = true ->
    row_buildable t = false ->
    to_df (PyList (before ++ t :: after)) kind
    = Raised (match t with PyDict _ => TypeError | _ => AttributeError end).
Proof.
  intros before t after kind Hb Ht. unfold to_df. cbn [iter bind].
  now rewrite (BuildFacts.to_df_loop_first_bad kind _ _ _ Hb Ht).
Qed.

(** A good item, then a string among the items; a good item, then an
    item whose steps hold a number. *)
Lemma to_df_raises_at_first_bad_item_witness :
  to_df (PyList [Sample.login_item; PyStr "oops"; Sample.critical_item]) "Positive"
  = Raised AttributeError
  /\ to_df (PyList [Sample.login_item;
                    PyDict [("steps", PyList [PyStr "a"; PyInt 2])]]) "Positive"
     = Raised TypeError.
Proof.
  split.
  - apply (to_df_raises_at_first_bad_item [Sample.login_item] (PyStr "oops")
             [Sample.critical_item] "Positive"); reflexivity.
  - apply (to_df_raises_at_first_bad_item [Sample.login_item]
             (PyDict [("steps", PyList [PyStr "a"; PyInt 2])]) [] "Positive");
      reflexivity.
Defined.

(** X5. For every item of a list handed to [to_df], the ID, Title,
    Preconditions and Expected Result of its row are the strings under
    [id], [title], [preconditions] and [expected_result], as they are,
    and the empty string for a key that is absent. *)
Theorem to_df_text_fields :
  forall (items : list pyobj) (kind : string) (rows : DataFrame),
    to_df (PyList items) kind = Returned rows ->
    Forall2 text_fields_defaulted items rows.
Proof.
  intros items kind rows H.
  destruct (RowFacts.to_df_rows _ _ _ H) as (ts & Hi & _ & Hall).
  injection Hi as <-. clear H.
  induction Hall as [|t r ts rs [Hr _] _ IH]; [constructor|].
  constructor; [|exact IH].
  destruct (RowFacts.to_row_inv _ _ _ Hr) as (entries & joined & -> & _ & ->).
  exists entries. cbn [col_ID col_Title col_Preconditions col_Expected_Result].
  repeat split; apply RowFacts.field_str_defaulted.
Qed.

(** An item with an id and a title, and an empty item. *)
Lemma to_df_text_fields_witness :
  exists rows,
    to_df (PyList [PyDict [("id", PyStr "P7"); ("title", PyStr "Login")]; PyDict []])
          "Positive" = Returned rows
    /\ map col_ID rows = [PyStr "P7"; PyStr ""]
    /\ map col_Title rows = [PyStr "Login"; PyStr ""]
    /\ Forall2 text_fields_defaulted
         [PyDict [("id", PyStr "P7"); ("title", PyStr "Login")]; PyDict []] rows.
Proof.
  eexists. split; [reflexivity|]. split; [reflexivity|]. split; [reflexivity|].
  apply (to_df_text_fields _ "Positive"). reflexivity.
Defined.

(** C6. For every item of a list handed to [to_df], the Steps of its row
    is what the [steps] of the item yields, joined with newlines into
    one string, and the empty string when the item has no [steps] key;
    the rows are built whenever every item is a mapping whose [steps],
    when present, can be joined. *)
Theorem to_df_steps_joined :
  forall (items : list pyobj) (kind : string),
    (forallb row_buildable items = true ->
     exists rows, to_df (PyList items) kind = Returned rows)
    /\ (forall rows : DataFrame,
          to_df (PyList items) kind = Returned rows ->
          Forall2 steps_joined items rows).
Proof.
  intros items kind. split.
  - intros H. now apply (BuildFacts.to_df_convertible (PyList items) kind).
  - intros rows H.
    destruct (RowFacts.to_df_rows _ _ _ H) as (ts & Hi & _ & Hall).
    injection Hi as <-. clear H.
    induction Hall as [|t r ts rs [Hr _] _ IH]; [constructor|].
    constructor; [|exact IH].
    destruct (RowFacts.to_row_inv _ _ _ Hr) as (entries & joined & -> & Hj & ->).
    exists entries. split; [reflexivity|]. cbn [col_Steps].
    unfold field, join in Hj. split.
    + intros steps ss Hs Hi. rewrite Hs, Hi in Hj. cbn [bind] in Hj.
      rewrite RowFacts.expect_strs_map in Hj. cbn [bind] in Hj.
      now injection Hj as <-.
    + intros Hs. rewrite Hs in Hj. cbn in Hj. now injection Hj as <-.
Qed.

(** Steps given as the list ["a", "b"], no steps, and steps given as the
    one string "é1", whose two characters go on two lines. *)
Lemma to_df_steps_joined_witness :
  let items := [PyDict [("id", PyStr "N1"); ("steps", PyList [PyStr "a"; PyStr "b"])];
                PyDict [("id", PyStr "N2")];
                PyDict [("steps", PyStr "é1")]] in
  forallb row_buildable items = true
  /\ iter (PyStr "é1") = Returned (map PyStr ["é"; "1"])
  /\ exists rows,
       to_df (PyList items) "Negative" = Returned rows
       /\ map col_Steps rows
          = [String "a" (String (ascii_of_nat 10) "b");
             EmptyString;
             ("é" ++ NL ++ "1")%string]
       /\ Forall2 steps_joined items rows.
Proof.
  intros items.
  split; [reflexivity|]. split; [reflexivity|].
  destruct (proj1 (to_df_steps_joined items "Negative") eq_refl) as [rows Hrows].
  exists rows. split; [exact Hrows|]. split.
  - vm_compute in Hrows. now injection Hrows as <-.
  - exact (proj2 (to_df_steps_joined items "Negative") rows Hrows).
Defined.

(* ================================================================= *)
(** ** What a run does to the session and to the trace *)

Section RunFacts.

Variable OPENAI_API_KEY : string.
Variable chat_completion :
  string -> string -> list (string * string) -> completion.
Variable json_loads : string -> outcome pyobj.

Lemma network_calls_app (tr es : list event) :
  network_calls (tr ++ es) = network_calls tr + network_calls es.
Proof. unfold network_calls. now rewrite filter_app, length_app. Qed.

(** The rows tagged with one kind, among rows of that kind followed by
    rows of another. *)
Lemma filter_tagged (kind other : string) (a b : DataFrame) :
  String.eqb other kind = false ->
  Forall (fun r => col_Type r = kind) a ->
  Forall (fun r => col_Type r = other) b ->
  filter (fun r => String.eqb (col_Type r) kind) (a ++ b) = a
  /\ filter (fun r => String.eqb (col_Type r) other) (a ++ b) = b.
Proof.
  intros Hne Ha Hb. rewrite !filter_app.
  assert (Hkeep : forall k l, Forall (fun r => col_Type r = k) l ->
            filter (fun r => String.eqb (col_Type r) k) l = l).
  { intros k l Hl. induction Hl as [|r l Hr _ IH]; cbn; [reflexivity|].
    now rewrite Hr, String.eqb_refl, IH. }
  assert (Hdrop : forall k k' l, String.eqb k k' = false ->
            Forall (fun r => col_Type r = k) l ->
            filter (fun r => String.eqb (col_Type r) k') l = []).
  { intros k k' l Hk Hl. induction Hl as [|r l Hr _ IH]; cbn; [reflexivity|].
    now rewrite Hr, Hk. }
  rewrite (Hkeep _ _ Ha), (Hkeep _ _ Hb), (Hdrop _ _ _ Hne Hb).
  rewrite String.eqb_sym in Hne. rewrite (Hdrop _ _ _ Hne Ha).
  now rewrite app_nil_r.
Qed.

(** What [process_output] adds to the trace holds no request and no box
    that starts with "Error: ", and the key of the session stays. *)
Lemma process_output_effects (raw : option string) (w : world)
      (res : step unit) (w' : world) :
  process_output json_loads raw w = (res, w') ->
  exists es,
    trace w' = trace w ++ es
    /\ network_calls es = 0
    /\ (forall msg, ~ In (st_error ("Error: " ++ msg)) es)
    /\ openai_api_key (session w') = openai_api_key (session w).
Proof.
  rewrite process_output_run.
  assert (Hnil : exists es : list event,
             trace w = trace w ++ es /\ network_calls es = 0
             /\ (forall msg, ~ In (st_error ("Error: " ++ msg)) es)
             /\ openai_api_key (session w) = openai_api_key (session w)).
  { exists []. rewrite app_nil_r. repeat split. intros msg []. }
  destruct (extract_json_raw json_loads raw) as [parsed|e];
    [|intros [= <- <-]; exact Hnil].
  destruct (parse_failed parsed) as [[|]|e];
    [|
     |intros [= <- <-]; exact Hnil].
  - intros [= <- <-]. eexists. split; [reflexivity|]. split; [reflexivity|].
    split; [|reflexivity].
    intros msg [H|[H|[]]]; [|discriminate H].
    injection H as H. cbn in H. discriminate H.
  - destruct (build_df_all parsed) as [[[pos neg] df_all]|e];
      [|intros [= <- <-]; exact Hnil].
    destruct (len pos) as [n_pos|e];
      [|intros [= <- <-]; exists []; cbn; rewrite app_nil_r; repeat split;
        intros msg []].
    destruct (len neg) as [n_neg|e];
      [|intros [= <- <-]; exists []; cbn; rewrite app_nil_r; repeat split;
        intros msg []].
    intros [= <- <-]. eexists. split; [reflexivity|]. split; [reflexivity|].
    split; [|reflexivity].
    intros msg [H|[]]. discriminate H.
Qed.

End RunFacts.

Section RunProperties.

Variable OPENAI_API_KEY : string.
Variable chat_completion :
  string -> string -> list (string * string) -> completion.
Variable json_loads : string -> outcome pyobj.

(** X6. A text in which neither the whole nor the block of braces parses
    always ends the run on the parse error, with the text shown as raw
    output and the session untouched: the fallback object never counts
    as a result, whatever words the text contains. *)
Theorem unparseable_text_is_parse_failure :
  forall (text : string) (w : world),
    raises (json_loads text) = true ->
    (forall block, Re.search text = Some block ->
                   raises (json_loads block) = true) ->
    process_output json_loads (Some text) w
    = (Interrupted StopException,
       logged w [st_error "Could not parse JSON output. Please try again.";
                 st_text (Some text)]).
Proof.
  intros text w Hwhole Hblock.
  assert (Hx : extract_json json_loads text = Returned (raw_text_object text)).
  { unfold extract_json.
    destruct (json_loads text) as [v|e]; [discriminate|]. cbn.
    destruct (Re.search text) as [block|]; [|reflexivity].
    specialize (Hblock block eq_refl).
    destruct (json_loads block) as [v|e']; [discriminate|reflexivity]. }
  rewrite process_output_run. cbn [extract_json_raw]. rewrite Hx. reflexivity.
Qed.

(** X7. For an accepted mapping the run completes exactly when both
    lists can be turned into data frames; otherwise it ends on an
    uncaught [TypeError] or [AttributeError] and leaves the world as it
    was: no box is drawn and no table is stored. *)
Theorem run_completes_iff_lists_convertible :
  forall (raw : option string) (entries : list (string * pyobj)) (w : world),
    extract_json_raw json_loads raw = Returned (PyDict entries) ->
    parse_failed (PyDict entries) = Returned false ->
    let pos := field "positive" (PyList []) entries in
    let neg := field "negative" (PyList []) entries in
    (convertible pos && convertible neg = true ->
     exists w', process_output json_loads raw w = (Continue tt, w'))
    /\ (convertible pos && convertible neg = false ->
        exists e,
          process_output json_loads raw w = (Interrupted (Uncaught e), w)
          /\ (e = TypeError \/ e = AttributeError)).
Proof.
  intros raw entries w Hx Hpf pos neg.
  assert (Hb : build_df_all (PyDict entries)
               = bind (to_df pos "Positive") (fun df_pos =>
                 bind (to_df neg "Negative") (fun df_neg =>
                 Returned (pos, neg, pd_concat df_pos df_neg)))) by reflexivity.
  split.
  - intros H. apply andb_true_iff in H as [Hp Hn].
    destruct (BuildFacts.to_df_convertible pos "Positive" Hp) as [df_pos Hdp].
    destruct (BuildFacts.to_df_convertible neg "Negative" Hn) as [df_neg Hdn].
    rewrite Hdp, Hdn in Hb. cbn [bind] in Hb.
    destruct (TableFacts.build_df_all_laid_out _ _ _ _ Hb)
      as (ts_pos & ts_neg & _ & _ & _ & _ & Hlp & Hln & _).
    eexists. rewrite process_output_run, Hx, Hpf, Hb, Hlp, Hln. reflexivity.
  - intros H. apply andb_false_iff in H.
    assert (Hraise : exists e, build_df_all (PyDict entries) = Raised e
                               /\ (e = TypeError \/ e = AttributeError)).
    { destruct (convertible pos) eqn:Hp.
      - destruct H as [H|H]; [discriminate|].
        destruct (BuildFacts.to_df_convertible pos "Positive" Hp) as [df_pos Hdp].
        destruct (BuildFacts.to_df_not_convertible neg "Negative" H)
          as (e & Hdn & He).
        exists e. now rewrite Hb, Hdp, Hdn.
      - destruct (BuildFacts.to_df_not_convertible pos "Positive" Hp)
          as (e & Hdp & He).
        exists e. now rewrite Hb, Hdp. }
    destruct Hraise as (e & Hbe & He).
    exists e. split; [|exact He].
    rewrite process_output_run, Hx, Hpf, Hbe. reflexivity.
Qed.

(** X8. A parsed value that passes the membership test without being a
    mapping (a list that holds the string "positive", a string that
    contains it) ends the run on an uncaught [AttributeError], the world
    untouched. *)
Theorem accepted_non_mapping_raises :
  forall (raw : option string) (parsed : pyobj) (w : world),
    extract_json_raw json_loads raw = Returned parsed ->
    (forall entries, parsed <> PyDict entries) ->
    parse_failed parsed = Returned false ->
    process_output json_loads raw w = (Interrupted (Uncaught AttributeError), w).
Proof.
  intros raw parsed w Hx Hnd Hpf.
  rewrite process_output_run, Hx, Hpf.
  destruct parsed; try reflexivity.
  now contradiction (Hnd entries).
Qed.

(** X9. A run sends exactly one request when the button is clicked with
    a key available and criteria that are not empty, and none otherwise;
    the request carries that key, the fixed model and the prompt made
    from the criteria. *)
Theorem requests_per_run :
  forall (inp : inputs) (w : world) (res : step unit) (w' : world),
    page OPENAI_API_KEY chat_completion json_loads inp w = (res, w') ->
    let k := resolved_key OPENAI_API_KEY (session (after_sidebar inp w)) in
    network_calls (trace w')
    = network_calls (trace w)
      + (if generate_btn inp && truthy k && truthy (ac inp) then 1 else 0)
    /\ (forall e, In e (trace w') -> is_request e = true ->
                  In e (trace w) \/ e = request_for k (ac inp)).
Proof.
  intros inp w res w' Hrun k.
  rewrite page_run in Hrun.
  pose proof (after_sidebar_network_calls inp w) as Hside.
  assert (Hin : forall e, In e (trace (after_sidebar inp w)) ->
                  is_request e = true -> In e (trace w)).
  { unfold after_sidebar. destruct (truthy (key_input inp)); [|auto].
    cbn [trace]. intros e He Hr. apply in_app_or in He as [He|[<-|[]]];
      [exact He|discriminate Hr]. }
  set (w1 := after_sidebar inp w) in *.
  destruct (generate_btn inp); cbn [andb].
  - rewrite generate_run in Hrun. cbv zeta in Hrun. fold k in Hrun.
    destruct (truthy k); cbn [negb andb] in *.
    + destruct (truthy (ac inp)); cbn [negb] in *.
      * destruct (chat_completion k MODEL (messages_for (PROMPT_format (ac inp))))
          as [raw|message].
        -- destruct (process_output_effects _ _ _ _ _ Hrun)
             as (es & Htr & Hes & _ & _).
           rewrite Htr. cbn [logged trace]. split.
           ++ rewrite !network_calls_app, Hes, Hside. cbn. lia.
           ++ intros e He Hr.
              apply in_app_or in He as [He|He].
              ** apply in_app_or in He as [He|[<-|[]]]; [left; now apply Hin|].
                 now right.
              ** exfalso. unfold network_calls in Hes.
                 assert (Hf : In e (filter is_request es))
                   by (apply filter_In; now split).
                 destruct (filter is_request es); [exact Hf|discriminate Hes].
        -- injection Hrun as <- <-. cbn [logged trace]. split.
           ++ rewrite network_calls_app, Hside. reflexivity.
           ++ intros e He Hr.
              apply in_app_or in He as [He|[<-|[<-|[]]]];
                [left; now apply Hin|now right|discriminate Hr].
      * injection Hrun as <- <-. cbn [logged trace]. split.
        -- rewrite network_calls_app, Hside. cbn. lia.
        -- intros e He Hr. apply in_app_or in He as [He|[<-|[]]];
             [left; now apply Hin|discriminate Hr].
    + injection Hrun as <- <-. cbn [logged trace]. split.
      * rewrite network_calls_app, Hside. cbn. lia.
      * intros e He Hr. apply in_app_or in He as [He|[<-|[]]];
          [left; now apply Hin|discriminate Hr].
  - injection Hrun as <- <-. split; [lia|].
    intros e He Hr. left. now apply Hin.
Qed.

End RunProperties.

Section SessionProperties.

Variable OPENAI_API_KEY : string.
Variable chat_completion :
  string -> string -> list (string * string) -> completion.
Variable json_loads : string -> outcome pyobj.

(** X10. A box "Error: ..." drawn by a run always carries the message
    with which the request to the model failed: the [ValueError] that
    [call_openai] raises on an empty key is never reached from the
    handler, and no other failure is reported in that form. *)
Theorem error_box_reports_request_failure :
  forall (inp : inputs) (w : world) (res : step unit) (w' : world) (msg : string),
    page OPENAI_API_KEY chat_completion json_loads inp w = (res, w') ->
    In (st_error ("Error: " ++ msg)) (trace w') ->
    ~ In (st_error ("Error: " ++ msg)) (trace w) ->
    let k := resolved_key OPENAI_API_KEY (session (after_sidebar inp w)) in
    generate_btn inp = true
    /\ truthy k = true
    /\ chat_completion k MODEL (messages_for (PROMPT_format (ac inp)))
       = Failure msg
    /\ res = Interrupted StopException.
Proof.
  intros inp w res w' msg Hrun Hin Hold k.
  rewrite page_run in Hrun.
  assert (Hnew : ~ In (st_error ("Error: " ++ msg)) (trace (after_sidebar inp w))).
  { unfold after_sidebar. destruct (truthy (key_input inp)); [|exact Hold].
    cbn [trace]. intros H. apply in_app_or in H as [H|[H|[]]];
      [now apply Hold|discriminate H]. }
  set (w1 := after_sidebar inp w) in *.
  destruct (generate_btn inp);
    [|injection Hrun as <- <-; now contradiction Hnew].
  rewrite generate_run in Hrun. cbv zeta in Hrun. fold k in Hrun.
  destruct (truthy k); cbn [negb] in Hrun.
  - destruct (truthy (ac inp)); cbn [negb] in Hrun.
    + destruct (chat_completion k MODEL (messages_for (PROMPT_format (ac inp))))
        as [raw|message].
      * exfalso.
        destruct (process_output_effects _ _ _ _ _ Hrun)
          as (es & Htr & _ & Hes & _).
        rewrite Htr in Hin. cbn [logged trace] in Hin.
        apply in_app_or in Hin as [Hin|Hin]; [|now apply (Hes msg)].
        apply in_app_or in Hin as [Hin|[Hin|[]]];
          [now apply Hnew|discriminate Hin].
      * injection Hrun as <- <-. cbn [logged trace] in Hin.
        apply in_app_or in Hin as [Hin|[Hin|[Hin|[]]]];
          [now contradiction Hnew|discriminate Hin|].
        injection Hin as Hin. cbn in Hin. subst message.
        now repeat split.
    + exfalso. injection Hrun as <- <-. cbn [logged trace] in Hin.
      apply in_app_or in Hin as [Hin|[Hin|[]]];
        [now apply Hnew|discriminate Hin].
  - exfalso. injection Hrun as <- <-. cbn [logged trace] in Hin.
    apply in_app_or in Hin as [Hin|[Hin|[]]]; [now apply Hnew|].
    injection Hin as Hin. cbn in Hin. discriminate Hin.
Qed.

(** X11. After any run the key of the session is the one typed in the
    sidebar when one was typed, and the earlier one otherwise: the
    handler never changes it.  A typed key is then what [get_api_key]
    returns, whatever the environment holds. *)
Theorem sidebar_key_is_kept :
  forall (inp : inputs) (w : world) (res : step unit) (w' : world),
    page OPENAI_API_KEY chat_completion json_loads inp w = (res, w') ->
    openai_api_key (session w')
    = (if truthy (key_input inp) then Some (key_input inp)
       else openai_api_key (session w))
    /\ (truthy (key_input inp) = true ->
        forall env_key,
          get_api_key env_key w' = (Continue (key_input inp), w')).
Proof.
  intros inp w res w' Hrun.
  assert (Hkey : openai_api_key (session w')
                 = (if truthy (key_input inp) then Some (key_input inp)
                    else openai_api_key (session w))).
  { rewrite page_run in Hrun.
    assert (Hside : openai_api_key (session (after_sidebar inp w))
                    = (if truthy (key_input inp) then Some (key_input inp)
                       else openai_api_key (session w)))
      by (unfold after_sidebar; now destruct (truthy (key_input inp))).
    set (w1 := after_sidebar inp w) in *.
    destruct (generate_btn inp); [|now injection Hrun as <- <-].
    rewrite generate_run in Hrun. cbv zeta in Hrun.
    destruct (truthy (resolved_key OPENAI_API_KEY (session w1)));
      cbn [negb] in Hrun; [|now injection Hrun as <- <-].
    destruct (truthy (ac inp)); cbn [negb] in Hrun;
      [|now injection Hrun as <- <-].
    destruct (chat_completion _ MODEL (messages_for (PROMPT_format (ac inp))))
      as [raw|message]; [|now injection Hrun as <- <-].
    destruct (process_output_effects _ _ _ _ _ Hrun) as (es & _ & _ & _ & Hk).
    now rewrite Hk. }
  split; [exact Hkey|].
  intros Ht env_key. rewrite get_api_key_run. unfold resolved_key.
  rewrite Hkey, Ht, Ht. reflexivity.
Qed.

(** X12. When [process_output] completes, the success box is the only
    thing it draws, and the two numbers in it are the numbers of rows of
    the stored table tagged "Positive" and "Negative", which together
    are all its rows. *)
Theorem success_box_counts_rows :
  forall (raw : option string) (w w' : world),
    process_output json_loads raw w = (Continue tt, w') ->
    exists df_all,
      last_results (session w') = Some df_all
      /\ let n_pos := List.length (filter (fun r => String.eqb (col_Type r) "Positive") df_all) in
         let n_neg := List.length (filter (fun r => String.eqb (col_Type r) "Negative") df_all) in
         trace w' = trace w ++ [st_success (generated_message n_pos n_neg)]
         /\ n_pos + n_neg = List.length df_all.
Proof.
  intros raw w w' Hrun.
  destruct (process_output_session _ _ _ _ _ Hrun)
    as [[_ Hne]|(parsed & pos & neg & df_all & _ & Hx & Hpf & Hb & _)];
    [now contradiction Hne|].
  rewrite process_output_run, Hx, Hpf, Hb in Hrun.
  destruct (TableFacts.build_df_all_laid_out _ _ _ _ Hb)
    as (ts_pos & ts_neg & df_pos & df_neg & _ & _ & Hlp & Hln & -> & Hlen & Hrp & Hrn).
  rewrite Hlp, Hln in Hrun. injection Hrun as <-.
  exists (df_pos ++ df_neg). split; [reflexivity|].
  destruct (filter_tagged "Positive" "Negative" df_pos df_neg eq_refl
              (RowFacts.Forall2_row_of_type _ _ _ Hrp)
              (RowFacts.Forall2_row_of_type _ _ _ Hrn)) as [-> ->].
  cbv zeta. rewrite <- (Forall2_length Hrp), <- (Forall2_length Hrn).
  split; [reflexivity|]. symmetry. exact Hlen.
Qed.

(** X13. A run does not read the table stored before it: started with
    another table, or none, under [last_results], it ends the same way
    and draws the same things; a completed generation stores the same
    table, and any other run leaves the other table in place. *)
Theorem run_replaces_table_wholesale :
  forall (inp : inputs) (w : world) (v : option DataFrame)
         (res : step unit) (w' : world),
    page OPENAI_API_KEY chat_completion json_loads inp w = (res, w') ->
    page OPENAI_API_KEY chat_completion json_loads inp (with_last_results w v)
    = (res,
       if generate_btn inp
          && match res with Continue _ => true | Interrupted _ => false end
       then w' else with_last_results w' v).
Proof.
  intros inp w v res w' Hrun.
  rewrite page_run in Hrun. rewrite page_run.
  assert (Hside : after_sidebar inp (with_last_results w v)
                  = with_last_results (after_sidebar inp w) v)
    by (unfold after_sidebar; now destruct (truthy (key_input inp))).
  rewrite Hside. set (w1 := after_sidebar inp w) in *.
  destruct (generate_btn inp); cbn [andb];
    [|now injection Hrun as <- <-].
  rewrite generate_run in Hrun. rewrite generate_run. cbv zeta in *.
  change (resolved_key OPENAI_API_KEY (session (with_last_results w1 v)))
    with (resolved_key OPENAI_API_KEY (session w1)).
  destruct (truthy (resolved_key OPENAI_API_KEY (session w1)));
    cbn [negb] in *; [|now injection Hrun as <- <-].
  destruct (truthy (ac inp)); cbn [negb] in *;
    [|now injection Hrun as <- <-].
  destruct (chat_completion _ MODEL (messages_for (PROMPT_format (ac inp))))
    as [raw|message]; [|now injection Hrun as <- <-].
  rewrite process_output_run in Hrun. rewrite process_output_run.
  destruct (extract_json_raw json_loads raw) as [parsed|e];
    [|now injection Hrun as <- <-].
  destruct (parse_failed parsed) as [[|]|e];
    try (now injection Hrun as <- <-).
  destruct (build_df_all parsed) as [[[pos neg] df_all]|e] eqn:Hb;
    [|now injection Hrun as <- <-].
  destruct (TableFacts.build_df_all_laid_out _ _ _ _ Hb)
    as (ts_pos & ts_neg & _ & _ & _ & _ & Hlp & Hln & _).
  rewrite Hlp, Hln in *. now injection Hrun as <- <-.
Qed.

End SessionProperties.

(* ================================================================= *)
(** ** The prompt *)

Module PromptFacts.

Lemma append_cancel_l (p s t : string) :
  (p ++ s)%string = (p ++ t)%string -> s = t.
Proof.
  induction p as [|c p IH]; cbn; [trivial|]. intros [= H]. now apply IH.
Qed.

Lemma append_char_cancel_r (c : ascii) (s t : string) :
  (s ++ String c EmptyString)%string = (t ++ String c EmptyString)%string ->
  s = t.
Proof.
  revert t. induction s as [|a s IH]; intros [|b t]; cbn.
  - reflexivity.
  - intros [= _ H]. destruct t; discriminate H.
  - intros [= _ H]. destruct s; discriminate H.
  - intros [= -> H]. f_equal. now apply IH.
Qed.

Lemma prefix_append (s t : string) : String.prefix s (s ++ t) = true.
Proof.
  induction s as [|c s IH]; cbn; [now destruct t|].
  destruct (ascii_dec c c) as [_|Hc]; [exact IH|now contradiction Hc].
Qed.

Lemma str_contains_append (pre s suf : string) :
  str_contains s (pre ++ s ++ suf) = true.
Proof.
  induction pre as [|c pre IH]; cbn [append].
  - destruct (s ++ suf)%string eqn:Hs; cbn [str_contains];
      rewrite <- Hs, prefix_append; reflexivity.
  - cbn [str_contains]. rewrite IH. apply orb_true_r.
Qed.

Lemma PROMPT_format_header (ac : string) :
  PROMPT_format ac = (prompt_header ++ ac ++ NL)%string.
Proof. reflexivity. Qed.

End PromptFacts.

(** X14. The prompt is the fixed instructions followed by the criteria as
    they were typed and a newline: the criteria occur in it, and two
    different criteria never give the same prompt. *)
Theorem prompt_carries_criteria :
  forall a b : string,
    PROMPT_format a = (prompt_header ++ a ++ NL)%string
    /\ str_contains a (PROMPT_format a) = true
    /\ (PROMPT_format a = PROMPT_format b -> a = b).
Proof.
  intros a b. split; [apply PromptFacts.PROMPT_format_header|]. split.
  - rewrite PromptFacts.PROMPT_format_header.
    apply PromptFacts.str_contains_append.
  - rewrite !PromptFacts.PROMPT_format_header. intros H.
    apply PromptFacts.append_cancel_l in H.
    now apply PromptFacts.append_char_cancel_r in H.
Qed.

(* ================================================================= *)
(** ** The display *)

(** X15. [style_priority] gives the white style to every value that is
    not one of the options of the Priority column, and three different
    styles to the three options. *)
Theorem style_priority_colours :
  (forall v : pyobj,
      style_priority v
      = "background-color: white; color: black; border-radius: 4px; padding: 2px;"
      <-> ~ In v (map PyStr PRIORITY_OPTIONS))
  /\ (forall a b : string,
        In a PRIORITY_OPTIONS -> In b PRIORITY_OPTIONS ->
        style_priority (PyStr a) = style_priority (PyStr b) -> a = b).
Proof.
  split.
  - intros v. unfold style_priority, PRIORITY_OPTIONS. cbn [map In].
    destruct v as [| | | |s| |];
      try (split; [intros _ [H|[H|[H|[]]]]; discriminate H|reflexivity]).
    cbn [eq_str].
    destruct (String.eqb_spec "High" s) as [<-|Hh].
    { split; [intros H; discriminate H|intros H; exfalso; apply H; now left]. }
    destruct (String.eqb_spec "Medium" s) as [<-|Hm].
    { split; [intros H; discriminate H
             |intros H; exfalso; apply H; right; now left]. }
    destruct (String.eqb_spec "Low" s) as [<-|Hl].
    { split; [intros H; discriminate H
             |intros H; exfalso; apply H; right; right; now left]. }
    split; [|reflexivity].
    intros _ [[= H]|[[= H]|[[= H]|[]]]]; congruence.
  - unfold PRIORITY_OPTIONS. cbn [In].
    intros a b [<-|[<-|[<-|[]]]] [<-|[<-|[<-|[]]]] H;
      try reflexivity; discriminate H.
Qed.

(** X16. The Positive tab and the Negative tab split a master table that
    is not empty into the rows built from the positive list and the rows
    built from the negative list, each in its order: every row is in
    exactly one of the two tabs. *)
Theorem tabs_split_master_table :
  forall (parsed pos neg : pyobj) (df_all : DataFrame),
    build_df_all parsed = Returned (pos, neg, df_all) ->
    df_all <> [] ->
    exists df_pos df_neg,
      to_df pos "Positive" = Returned df_pos
      /\ to_df neg "Negative" = Returned df_neg
      /\ df_all = df_pos ++ df_neg
      /\ select_Type "Positive" df_all = Some df_pos
      /\ select_Type "Negative" df_all = Some df_neg.
Proof.
  intros parsed pos neg df_all Hb Hne.
  destruct (TableFacts.build_df_all_inv _ _ _ _ Hb)
    as (entries & df_pos & df_neg & _ & _ & _ & Hp & Hn & ->).
  exists df_pos, df_neg.
  split; [exact Hp|]. split; [exact Hn|]. split; [reflexivity|].
  destruct (RowFacts.to_df_rows _ _ _ Hp) as (ts_pos & _ & _ & Hrp).
  destruct (RowFacts.to_df_rows _ _ _ Hn) as (ts_neg & _ & _ & Hrn).
  destruct (filter_tagged "Positive" "Negative" df_pos df_neg eq_refl
              (RowFacts.Forall2_row_of_type _ _ _ Hrp)
              (RowFacts.Forall2_row_of_type _ _ _ Hrn)) as [Hfp Hfn].
  unfold select_Type.
  destruct (df_pos ++ df_neg) as [|r rest] eqn:Hall; [now contradiction Hne|].
  now rewrite Hfp, Hfn.
Qed.

(** X17. An accepted mapping whose two lists are both empty or absent
    completes the run: the success box reports 0 and 0, and the table
    stored has no rows and so no column, so that the selection of
    either tab raises on it. *)
Theorem empty_lists_store_table_without_columns :
  forall (json_loads : string -> outcome pyobj) (raw : option string)
         (entries : list (string * pyobj)) (w : world),
    extract_json_raw json_loads raw = Returned (PyDict entries) ->
    parse_failed (PyDict entries) = Returned false ->
    iter (field "positive" (PyList []) entries) = Returned [] ->
    iter (field "negative" (PyList []) entries) = Returned [] ->
    exists w' df_all,
      process_output json_loads raw w = (Continue tt, w')
      /\ last_results (session w') = Some df_all
      /\ trace w' = trace w ++ [st_success (generated_message 0 0)]
      /\ forall kind, select_Type kind df_all = None.
Proof.
  intros json_loads raw entries w Hx Hpf Hp Hn.
  assert (Hb : build_df_all (PyDict entries)
               = Returned (field "positive" (PyList []) entries,
                           field "negative" (PyList []) entries, [])).
  { unfold build_df_all. cbn [get bind].
    fold (field "positive" (PyList []) entries).
    fold (field "negative" (PyList []) entries).
    unfold to_df. rewrite Hp, Hn. reflexivity. }
  destruct (TableFacts.build_df_all_laid_out _ _ _ _ Hb)
    as (ts_pos & ts_neg & _ & _ & Hip & Hin & Hlp & Hln & _).
  rewrite Hp in Hip. rewrite Hn in Hin.
  injection Hip as <-. injection Hin as <-.
  exists (logged (stored w []) [st_success (generated_message 0 0)]), [].
  rewrite process_output_run, Hx, Hpf, Hb, Hlp, Hln.
  repeat split.
Qed.

(* ================================================================= *)
(** ** These properties at work on the reference decoder *)

(** Prose that contains the words "positive" and "negative". *)
Lemma unparseable_text_is_parse_failure_witness :
  raises (Json.loads Sample.apology_text) = true
  /\ Re.search Sample.apology_text = None
  /\ process_output Json.loads (Some Sample.apology_text) Sample.keyed_world
     = (Interrupted StopException,
        logged Sample.keyed_world
          [st_error "Could not parse JSON output. Please try again.";
           st_text (Some Sample.apology_text)]).
Proof.
  split; [vm_compute; reflexivity|]. split; [vm_compute; reflexivity|].
  apply (unparseable_text_is_parse_failure Json.loads Sample.apology_text).
  - vm_compute; reflexivity.
  - intros block H. vm_compute in H. discriminate H.
Defined.

(** The login object completes; a positive list that holds the number 5
    ends the run on [AttributeError]. *)
Lemma run_completes_iff_lists_convertible_witness :
  (exists w', process_output Json.loads (Some Sample.login_text) Sample.keyed_world
              = (Continue tt, w'))
  /\ process_output Json.loads (Some Sample.number_item_text) Sample.keyed_world
     = (Interrupted (Uncaught AttributeError), Sample.keyed_world).
Proof.
  split.
  - apply (proj1 (run_completes_iff_lists_convertible Json.loads
                    (Some Sample.login_text)
                    [("positive", PyList [Sample.login_item]); ("negative", PyList [])]
                    Sample.keyed_world
                    ltac:(vm_compute; reflexivity) eq_refl)).
    reflexivity.
  - destruct (proj2 (run_completes_iff_lists_convertible Json.loads
                       (Some Sample.number_item_text)
                       [("positive", PyList [PyInt 5])]
                       Sample.keyed_world
                       ltac:(vm_compute; reflexivity) eq_refl) eq_refl)
      as (e & Hrun & _).
    rewrite Hrun. vm_compute in Hrun. now injection Hrun as ->.
Defined.

(** The text of a list that holds the string "positive". *)
Lemma accepted_non_mapping_raises_witness :
  extract_json_raw Json.loads (Some Sample.list_text)
  = Returned (PyList [PyStr "positive"])
  /\ parse_failed (PyList [PyStr "positive"]) = Returned false
  /\ process_output Json.loads (Some Sample.list_text) Sample.keyed_world
     = (Interrupted (Uncaught AttributeError), Sample.keyed_world).
Proof.
  assert (Hx : extract_json_raw Json.loads (Some Sample.list_text)
               = Returned (PyList [PyStr "positive"]))
    by (vm_compute; reflexivity).
  split; [exact Hx|]. split; [reflexivity|].
  apply (accepted_non_mapping_raises Json.loads _ _ Sample.keyed_world Hx);
    [discriminate|reflexivity].
Defined.

(** One request for a click with a key and criteria; none without the
    click. *)
Lemma requests_per_run_witness :
  let clicked := page "" (Sample.answering Sample.login_text) Json.loads
                      (Sample.click "User can log in") Sample.keyed_world in
  let idle := page "" (Sample.answering Sample.login_text) Json.loads
                   {| key_input := ""; ac := "User can log in";
                      generate_btn := false |} Sample.keyed_world in
  network_calls (trace (snd clicked)) = 1
  /\ network_calls (trace (snd idle)) = 0.
Proof.
  intros clicked idle. split.
  - apply (proj1 (requests_per_run "" (Sample.answering Sample.login_text)
                    Json.loads _ _ (fst clicked) (snd clicked)
                    (surjective_pairing clicked))).
  - apply (proj1 (requests_per_run "" (Sample.answering Sample.login_text)
                    Json.loads _ _ (fst idle) (snd idle)
                    (surjective_pairing idle))).
Defined.

(** A request that fails with "rate limit". *)
Lemma error_box_reports_request_failure_witness :
  let run := page "" (Sample.failing "rate limit") Json.loads
                  (Sample.click "User can log in") Sample.keyed_world in
  In (st_error "Error: rate limit") (trace (snd run))
  /\ Sample.failing "rate limit" "sk-test" MODEL
       (messages_for (PROMPT_format "User can log in")) = Failure "rate limit"
  /\ fst run = Interrupted StopException.
Proof.
  intros run.
  assert (Hin : In (st_error ("Error: " ++ "rate limit")) (trace (snd run)))
    by (vm_compute; right; left; reflexivity).
  split; [exact Hin|].
  destruct (error_box_reports_request_failure "" (Sample.failing "rate limit")
              Json.loads _ _ (fst run) (snd run) "rate limit"
              (surjective_pairing run) Hin ltac:(intros []))
    as (_ & _ & Hreply & Hres).
  split; [exact Hreply|exact Hres].
Defined.

(** A key typed in the sidebar of a session that had none, with another
    key in the environment. *)
Lemma sidebar_key_is_kept_witness :
  let run := page "sk-env" (Sample.answering Sample.login_text) Json.loads
                  {| key_input := "sk-typed"; ac := "User can log in";
                     generate_btn := true |} Sample.fresh_world in
  openai_api_key (session (snd run)) = Some "sk-typed"
  /\ get_api_key "sk-env" (snd run) = (Continue "sk-typed", snd run).
Proof.
  intros run.
  destruct (sidebar_key_is_kept "sk-env" (Sample.answering Sample.login_text)
              Json.loads _ _ (fst run) (snd run) (surjective_pairing run))
    as [Hkey Hget].
  split; [exact Hkey|exact (Hget eq_refl "sk-env")].
Defined.

(** The login object: one positive row, no negative row. *)
Lemma success_box_counts_rows_witness :
  exists w',
    process_output Json.loads (Some Sample.login_text) Sample.keyed_world
    = (Continue tt, w')
    /\ trace w' = [st_success (generated_message 1 0)].
Proof.
  eexists. split; [vm_compute; reflexivity|].
  destruct (success_box_counts_rows Json.loads (Some Sample.login_text)
              Sample.keyed_world _ ltac:(vm_compute; reflexivity))
    as (df_all & Hlast & Htrace & _).
  injection Hlast as <-. exact Htrace.
Defined.

(** The login run started without the earlier table stores the same
    table; a failed request leaves the absence of a table in place. *)
Lemma run_replaces_table_wholesale_witness :
  let ok := page "" (Sample.answering Sample.login_text) Json.loads
                 (Sample.click "User can log in") in
  let ko := page "" (Sample.failing "rate limit") Json.loads
                 (Sample.click "User can log in") in
  ok (with_last_results Sample.keyed_world None) = ok Sample.keyed_world
  /\ last_results (session (snd (ko (with_last_results Sample.keyed_world None))))
     = None.
Proof.
  intros ok ko. split.
  - unfold ok.
    rewrite (run_replaces_table_wholesale "" (Sample.answering Sample.login_text)
               Json.loads _ Sample.keyed_world None
               (fst (ok Sample.keyed_world)) (snd (ok Sample.keyed_world))
               (surjective_pairing _)).
    vm_compute. reflexivity.
  - unfold ko.
    rewrite (run_replaces_table_wholesale "" (Sample.failing "rate limit")
               Json.loads _ Sample.keyed_world None
               (fst (ko Sample.keyed_world)) (snd (ko Sample.keyed_world))
               (surjective_pairing _)).
    reflexivity.
Defined.

(** The master table of the login object. *)
Lemma tabs_split_master_table_witness :
  build_df_all Sample.login_object
  = Returned (PyList [Sample.login_item], PyList [], [Sample.login_row])
  /\ select_Type "Positive" [Sample.login_row] = Some [Sample.login_row]
  /\ select_Type "Negative" [Sample.login_row] = Some [].
Proof.
  assert (Hb : build_df_all Sample.login_object
               = Returned (PyList [Sample.login_item], PyList [],
                           [Sample.login_row])) by reflexivity.
  destruct (tabs_split_master_table _ _ _ _ Hb ltac:(discriminate))
    as (df_pos & df_neg & Hp & Hn & _ & Hsp & Hsn).
  split; [exact Hb|].
  vm_compute in Hp, Hn. injection Hp as <-. injection Hn as <-.
  split; [exact Hsp|exact Hsn].
Defined.

(** An object whose positive list is empty and whose negative list is
    absent. *)
Lemma empty_lists_store_table_without_columns_witness :
  exists w',
    process_output Json.loads (Some Sample.empty_list_text) Sample.keyed_world
    = (Continue tt, w')
    /\ last_results (session w') = Some []
    /\ select_Type "Positive" [] = None.
Proof.
  destruct (empty_lists_store_table_without_columns Json.loads
              (Some Sample.empty_list_text) [("positive", PyList [])]
              Sample.keyed_world ltac:(vm_compute; reflexivity)
              eq_refl eq_refl eq_refl)
    as (w' & df_all & Hrun & _ & _ & _).
  exists w'. split; [exact Hrun|]. split; [|reflexivity].
  vm_compute in Hrun. injection Hrun as <-. reflexivity.
Defined.

(* ================================================================= *)
(** ** An answer without content *)

(** X18. When the model answers with no content ([None]), the request
    has been sent, [extract_json] raises [TypeError] out of its handler,
    and the run ends on that exception: nothing is drawn and the session
    is what the sidebar left. *)
Theorem answer_without_content_raises :
  forall (OPENAI_API_KEY : string)
         (chat_completion : string -> string -> list (string * string) -> completion)
         (json_loads : string -> outcome pyobj)
         (inp : inputs) (w : world),
    let w1 := after_sidebar inp w in
    let k := resolved_key OPENAI_API_KEY (session w1) in
    generate_btn inp = true ->
    truthy k = true ->
    truthy (ac inp) = true ->
    chat_completion k MODEL (messages_for (PROMPT_format (ac inp)))
    = Completion None ->
    page OPENAI_API_KEY chat_completion json_loads inp w
    = (Interrupted (Uncaught TypeError), logged w1 [request_for k (ac inp)]).
Proof.
  intros env client loads inp w w1 k Hbtn Hk Hac Hreply.
  rewrite page_run, Hbtn, generate_run. cbv zeta. fold w1. fold k.
  rewrite Hk, Hac. cbn [negb]. rewrite Hreply.
  now rewrite process_output_run.
Qed.

(** A model that answers without content. *)
Lemma answer_without_content_raises_witness :
  page "" (fun _ _ _ => Completion None) Json.loads
       (Sample.click "User can log in") Sample.keyed_world
  = (Interrupted (Uncaught TypeError),
     logged Sample.keyed_world [request_for "sk-test" "User can log in"]).
Proof.
  apply (answer_without_content_raises "" (fun _ _ _ => Completion None)
           Json.loads (Sample.click "User can log in") Sample.keyed_world);
    reflexivity.
Defined.
